(** * PIXHUB: edit history, passport workflow, raster layout and the
      adjustment translator

    A shallow embedding of the orchestration layer of the photo editor
    ([src/App.tsx]), of the adjustment-to-instruction translator
    ([src/components/AdjustmentPanel.tsx]) and of the passport panel
    ([PassportPanel], in [src/components/Header.tsx]).

    - JavaScript numbers are binary64 floats: they are modelled by Rocq's
      primitive floats, which implement the same format and rounding.
      Slider values and the history cursor are integers in the program and
      are modelled by [Z].
    - A JavaScript string is modelled by the [string] of the bytes of its
      UTF-8 encoding: the characters the program tests for ([,], [:], [;],
      digits, signs) are single bytes that occur in no longer sequence, and
      the white space and the line terminators beyond U+007F are recognised
      by their two or three bytes.
    - React state is one record; a handler is a function on that record that
      performs the [set...] calls of the source in the source's order.
    - An [await] splits a handler in two: the part that runs at once and the
      continuation, a closure kept in the list of calls in flight. *)

From Stdlib Require Import ZArith List String Ascii Bool Lia.
From Stdlib Require Import PrimFloat FloatOps FloatAxioms SpecFloat.
From Stdlib Require Uint63.
Import ListNotations.

Set Warnings "-inexact-float".
Local Open Scope string_scope.
Local Open Scope Z_scope.

(** ** JavaScript values used by the program *)

Module JS.

(** [l.slice(0, e)]: a negative [e] counts from the end, and both bounds are
    clamped to the array. *)
Definition slice0 {A : Type} (l : list A) (e : Z) : list A :=
  let len := Z.of_nat (List.length l) in
  let k := if e <? 0 then Z.max (len + e) 0 else Z.min e len in
  firstn (Z.to_nat k) l.

(** [l[i] ?? null]: indexing outside the array gives [undefined]. *)
Definition index {A : Type} (l : list A) (i : Z) : option A :=
  if i <? 0 then None else nth_error l (Z.to_nat i).

(** [parts.push(x)]. *)
Definition push {A : Type} (parts : list A) (x : A) : list A :=
  (parts ++ [x])%list.

(** [parts.join(sep)]. *)
Fixpoint join (sep : string) (parts : list string) : string :=
  match parts with
  | [] => ""
  | [p] => p
  | p :: rest => p ++ sep ++ join sep rest
  end.

(** [parts.pop()]: the array without its last element, and that element. *)
Fixpoint pop {A : Type} (l : list A) : option (list A * A) :=
  match l with
  | [] => None
  | x :: rest =>
      match pop rest with
      | None => Some ([], x)
      | Some (init, last) => Some (x :: init, last)
      end
  end.

(** [s.split(',')]: never empty; the empty string splits to one empty part. *)
Fixpoint split_comma (s : string) : list string :=
  match s with
  | EmptyString => [""]
  | String c r =>
      if Ascii.eqb c "," then "" :: split_comma r
      else match split_comma r with
           | [] => [String c ""]
           | p :: ps => String c p :: ps
           end
  end.

(** A string is truthy when it is not empty. *)
Definition truthy (s : string) : bool :=
  match s with EmptyString => false | _ => true end.

(** The integer part of a number, [0] for NaN and the infinities
    (WebIDL, "IntegerPart"). *)
Definition IntegerPart (f : float) : Z :=
  match Prim2SF f with
  | S754_finite s m e =>
      let mag := match e with
                 | Z0 => Zpos m
                 | Zpos p => Z.shiftl (Zpos m) (Zpos p)
                 | Zneg p => Z.shiftr (Zpos m) (Zpos p)
                 end in
      if s then - mag else mag
  | _ => 0
  end.

(** Conversion of a number to a WebIDL [unsigned long]. *)
Definition to_unsigned_long (f : float) : Z := IntegerPart f mod 2 ^ 32.

(** [v || 1] on numbers: [0], [-0] and NaN are falsy. *)
Definition or_one (v : float) : float :=
  if (is_zero v || is_nan v)%bool then 1%float else v.

Definition byte (c : ascii) : Z := Z.of_nat (nat_of_ascii c).

(** The number of bytes of the line terminator a string starts with, [0]
    when it starts with none: U+000A, U+000D, U+2028, U+2029. *)
Definition line_terminator_width (s : string) : nat :=
  match s with
  | String c r =>
      if ((byte c =? 10) || (byte c =? 13))%bool then 1%nat
      else
        match r with
        | String d (String e _) =>
            if ((byte c =? 226) && (byte d =? 128)
                && ((byte e =? 168) || (byte e =? 169)))%bool
            then 3%nat else 0%nat
        | _ => 0%nat
        end
  | EmptyString => 0%nat
  end.

(** The number of bytes of the white space or line terminator a string
    starts with, [0] when it starts with none: what [trim] strips and
    [parseInt] skips. These are U+0009 to U+000D, U+0020, U+00A0, U+1680,
    U+2000 to U+200A, U+2028, U+2029, U+202F, U+205F, U+3000 and U+FEFF. *)
Definition space_width (s : string) : nat :=
  match s with
  | String c r =>
      if ((byte c =? 32) || ((9 <=? byte c) && (byte c <=? 13)))%bool then 1%nat
      else
        match r with
        | String d r' =>
            if ((byte c =? 194) && (byte d =? 160))%bool then 2%nat
            else
              match r' with
              | String e _ =>
                  if ((byte c =? 225) && (byte d =? 154) && (byte e =? 128))%bool
                  then 3%nat
                  else if ((byte c =? 226) && (byte d =? 128)
                           && (((128 <=? byte e) && (byte e <=? 138))
                               || (byte e =? 168) || (byte e =? 169)
                               || (byte e =? 175)))%bool
                  then 3%nat
                  else if ((byte c =? 226) && (byte d =? 129) && (byte e =? 159))%bool
                  then 3%nat
                  else if ((byte c =? 227) && (byte d =? 128) && (byte e =? 128))%bool
                  then 3%nat
                  else if ((byte c =? 239) && (byte d =? 187) && (byte e =? 191))%bool
                  then 3%nat
                  else 0%nat
              | EmptyString => 0%nat
              end
        | EmptyString => 0%nat
        end
  | EmptyString => 0%nat
  end.

(** The Number of a mathematical integer: the nearest binary64 number, ties
    to even, an infinity beyond the range. *)
Definition number (z : Z) : float := SF2Prim (binary_normalize prec emax z 0 false).

(** What a [throw] carries: an [Error] with its message, or something else. *)
Inductive Thrown :=
| ErrorObject (message : string)
| NonError.

(** A computation that returns or throws. *)
Inductive result (A : Type) :=
| Ok (a : A)
| Throw (t : Thrown).
Arguments Ok {A} a.
Arguments Throw {A} t.

Definition bind {A B : Type} (r : result A) (k : A -> result B) : result B :=
  match r with
  | Ok a => k a
  | Throw t => Throw t
  end.

End JS.

Notation "'let?' x ':=' r 'in' k" := (JS.bind r (fun x => k))
  (at level 10, x name, r at level 100, k at level 200).

(** ** The adjustment translator ([AdjustmentPanel.tsx]) *)

Module AdjustmentPanel.

Inductive AdjustmentKey :=
| Kbrightness | Kcontrast | Ksaturation | Ktemperature
| Ksharpness | KvignetteIntensity | KvignetteFeather | KcolorBalance.

(** The key as the string it is in the source. *)
Definition key_name (k : AdjustmentKey) : string :=
  match k with
  | Kbrightness => "brightness"
  | Kcontrast => "contrast"
  | Ksaturation => "saturation"
  | Ktemperature => "temperature"
  | Ksharpness => "sharpness"
  | KvignetteIntensity => "vignetteIntensity"
  | KvignetteFeather => "vignetteFeather"
  | KcolorBalance => "colorBalance"
  end.

Record Adjustments := {
  brightness : Z;
  contrast : Z;
  saturation : Z;
  temperature : Z;
  sharpness : Z;
  vignetteIntensity : Z;
  vignetteFeather : Z;
  colorBalance : Z
}.

Definition initialAdjustments : Adjustments :=
  {| brightness := 0; contrast := 0; saturation := 0; temperature := 0;
     sharpness := 0; vignetteIntensity := 0; vignetteFeather := 0;
     colorBalance := 0 |}.

(** [Object.keys(adjustments)]: the keys in the order [initialAdjustments]
    lists them; [{...adjustments, [key]: value}] keeps that order. *)
Definition keys : list AdjustmentKey :=
  [Kbrightness; Kcontrast; Ksaturation; Ktemperature;
   Ksharpness; KvignetteIntensity; KvignetteFeather; KcolorBalance].

(** [adjustments[key]]. *)
Definition get (a : Adjustments) (k : AdjustmentKey) : Z :=
  match k with
  | Kbrightness => brightness a
  | Kcontrast => contrast a
  | Ksaturation => saturation a
  | Ktemperature => temperature a
  | Ksharpness => sharpness a
  | KvignetteIntensity => vignetteIntensity a
  | KvignetteFeather => vignetteFeather a
  | KcolorBalance => colorBalance a
  end.

(** [intensityMap]. Its keys are integers, so [Object.keys] lists them in
    ascending order and [parseInt] gives each key back. *)
Definition intensityMap : list (Z * string) :=
  [(20, "subtly"); (40, "slightly"); (60, ""); (80, "significantly");
   (100, "dramatically")].

Fixpoint lookup (k : Z) (m : list (Z * string)) : option string :=
  match m with
  | [] => None
  | (k', v) :: rest => if k =? k' then Some v else lookup k rest
  end.

(** A missing entry would print as [undefined] in a template. *)
Definition show (o : option string) : string :=
  match o with Some s => s | None => "undefined" end.

Definition valueToText (key : AdjustmentKey) (value : Z) : option string :=
  if value =? 0 then None else
  let absoluteValue := Z.abs value in
  let intensityKey := find (fun k => absoluteValue <=? k) (map fst intensityMap) in
  let intensity :=
    show (lookup (match intensityKey with Some k => k | None => 60 end) intensityMap) in
  let direction := if 0 <? value then "increase" else "decrease" in
  match key with
  | Kbrightness => Some (direction ++ " the brightness " ++ intensity)
  | Kcontrast => Some (direction ++ " the contrast " ++ intensity)
  | Ksaturation => Some (direction ++ " the color saturation " ++ intensity)
  | Ksharpness => Some (direction ++ " the sharpness " ++ intensity)
  | Ktemperature =>
      let tempDirection := if 0 <? value then "warmer" else "cooler" in
      Some ("make the image's color temperature " ++ intensity ++ " " ++ tempDirection)
  | KvignetteIntensity =>
      let vignetteType := if 0 <? value then "dark" else "light" in
      Some ("add a " ++ intensity ++ " " ++ vignetteType ++ " vignette")
  | KcolorBalance =>
      let colorTarget := if 0 <? value then "green/cyan" else "magenta/red" in
      Some ("shift the color balance " ++ intensity ++ " towards " ++ colorTarget)
  | KvignetteFeather => None
  end.

(** One round of the [forEach]: the [parts] array after the callback ran on
    [key]. *)
Definition forEach_body (adjustments : Adjustments) (parts : list string)
    (key : AdjustmentKey) : list string :=
  if String.prefix "vignette" (key_name key) then parts else
  match valueToText key (get adjustments key) with
  | Some part => if JS.truthy part then JS.push parts part else parts
  | None => parts
  end.

Definition featherDesc (featherValue : Z) : string :=
  if featherValue <=? 25 then "with a hard, distinct edge"
  else if featherValue <=? 75 then "with a medium, soft feather"
  else "with a very soft, gradual feather".

Definition generatedPrompt (adjustments : Adjustments) : string :=
  let parts := fold_left (forEach_body adjustments) keys [] in
  let parts :=
    if negb (vignetteIntensity adjustments =? 0) then
      let vignettePrompt :=
        match valueToText KvignetteIntensity (vignetteIntensity adjustments) with
        | Some t => t
        | None => "null"
        end in
      JS.push parts (vignettePrompt ++ " " ++ featherDesc (vignetteFeather adjustments))
    else parts in
  match parts with
  | [] => ""
  | [p] => "Apply the following adjustment: " ++ p ++ "."
  | _ =>
      match JS.pop parts with
      | Some (init, lastPart) =>
          "Apply the following adjustments: " ++ JS.join ", " init
            ++ ", and " ++ lastPart ++ "."
      | None => ""
      end
  end.

(** [handleValueChange]: [{ ...adjustments, [key]: value }], handed to
    [onAdjustmentChange]. *)
Definition handleValueChange (adjustments : Adjustments) (key : AdjustmentKey)
    (value : Z) : Adjustments :=
  {| brightness := match key with Kbrightness => value | _ => brightness adjustments end;
     contrast := match key with Kcontrast => value | _ => contrast adjustments end;
     saturation := match key with Ksaturation => value | _ => saturation adjustments end;
     temperature := match key with Ktemperature => value | _ => temperature adjustments end;
     sharpness := match key with Ksharpness => value | _ => sharpness adjustments end;
     vignetteIntensity :=
       match key with KvignetteIntensity => value | _ => vignetteIntensity adjustments end;
     vignetteFeather :=
       match key with KvignetteFeather => value | _ => vignetteFeather adjustments end;
     colorBalance :=
       match key with KcolorBalance => value | _ => colorBalance adjustments end |}.

(** [Object.values(adjustments)]. *)
Definition values (adjustments : Adjustments) : list Z :=
  map (get adjustments) keys.

(** [hasChanges]: it enables the two buttons of the panel. *)
Definition hasChanges (adjustments : Adjustments) : bool :=
  existsb (fun v => negb (v =? 0)) (values adjustments).

(** [handleApply]: the prompt handed to [onApplyAdjustment], if any. *)
Definition handleApply (adjustments : Adjustments) : option string :=
  if JS.truthy (generatedPrompt adjustments)
  then Some (generatedPrompt adjustments)
  else None.

End AdjustmentPanel.

(** ** The browser: images, canvases, data URLs *)

Module Img.
(** What the code reads of an [HTMLImageElement]. *)
Record t := {
  naturalWidth : float;
  naturalHeight : float;
  width : float;
  height : float
}.
End Img.

Module PixelCrop.
(** A rectangle in displayed-image coordinates ([react-image-crop]). *)
Record t := {
  x : float;
  y : float;
  width : float;
  height : float
}.
End PixelCrop.

Module File.
Record t := {
  name : string;
  type : string;
  bits : string
}.

Definition printable (c : ascii) : bool :=
  ((32 <=? JS.byte c) && (JS.byte c <=? 126))%bool.

Definition lower (c : ascii) : ascii :=
  if ((65 <=? JS.byte c) && (JS.byte c <=? 90))%bool
  then ascii_of_nat (nat_of_ascii c + 32) else c.

Fixpoint all (f : ascii -> bool) (s : string) : bool :=
  match s with
  | EmptyString => true
  | String c r => (f c && all f r)%bool
  end.

Fixpoint lowercase (s : string) : string :=
  match s with
  | EmptyString => EmptyString
  | String c r => String (lower c) (lowercase r)
  end.

(** The type [new File(bits, name, {type})] keeps: the empty string when a
    character is outside U+0020 to U+007E, else the type in lower case. *)
Definition kept_type (type : string) : string :=
  if all printable type then lowercase type else "".

(** [new File([bits], name, {type})]. *)
Definition make (bits name type : string) : t :=
  {| name := name; type := kept_type type; bits := bits |}.
End File.

Module Canvas.

Inductive Op :=
| setTransform (a b c d e f : float)
| fillRect (fillStyle : string) (x y w h : float)
| strokeRect (strokeStyle : string) (lineWidth : float) (x y w h : float)
| drawImage (dx dy dw dh : float)
| drawImageFrom (sx sy sw sh dx dy dw dh : float).

(** A canvas: the size of its bitmap and what was drawn on it, in order. *)
Record t := {
  width : Z;
  height : Z;
  ops : list Op
}.

(** [document.createElement('canvas')]. *)
Definition create : t := {| width := 300; height := 150; ops := [] |}.

(** The value a dimension takes when a number is assigned to it: the number
    as an [unsigned long], or the default when that is above [2^31 - 1]. *)
Definition dim (default : Z) (v : float) : Z :=
  let n := JS.to_unsigned_long v in
  if n <=? 2147483647 then n else default.

(** Assigning a dimension clears the bitmap. *)
Definition set_width (v : float) (c : t) : t :=
  {| width := dim 300 v; height := height c; ops := [] |}.

Definition set_height (v : float) (c : t) : t :=
  {| width := width c; height := dim 150 v; ops := [] |}.

Definition draw (o : Op) (c : t) : t :=
  {| width := width c; height := height c; ops := JS.push (ops c) o |}.

End Canvas.

Module Browser.

(** What the browser supplies to a handler when it runs. *)
Record t := {
  devicePixelRatio : float;
  (** whether [canvas.getContext('2d')] gives a context *)
  getContext2d : bool;
  (** [canvas.toDataURL(type)] of a bitmap that has pixels *)
  encode : Canvas.t -> string -> string;
  atob : string -> JS.result string;
  (** [Date.now()], printed *)
  now : string;
  (** [imgRef.current] *)
  imgRef : option Img.t
}.

(** [canvas.toDataURL(type)]: a bitmap with no pixels gives ["data:,"]. *)
Definition toDataURL (b : t) (c : Canvas.t) (type : string) : string :=
  if ((Canvas.width c =? 0) || (Canvas.height c =? 0))%bool then "data:,"
  else encode b c type.

End Browser.

(** ** Raster utilities ([App.tsx]) *)

Module Raster.

(** Whether a string starts with a line terminator. *)
Definition is_line_terminator (s : string) : bool :=
  negb (Nat.eqb (JS.line_terminator_width s) 0).

(** The text after a [:] up to the first [;], as [(.*?);] matches it: [.]
    stops at a line terminator. *)
Fixpoint upto_semicolon (s : string) : option string :=
  match s with
  | EmptyString => None
  | String c r =>
      if Ascii.eqb c ";" then Some ""
      else if is_line_terminator s then None
      else option_map (String c) (upto_semicolon r)
  end.

(** [s.match(/:(.*?);/)[1]]: the group of the leftmost match. *)
Fixpoint match_mime (s : string) : option string :=
  match s with
  | EmptyString => None
  | String c r =>
      if Ascii.eqb c ":" then
        match upto_semicolon r with
        | Some g => Some g
        | None => match_mime r
        end
      else match_mime r
  end.

Definition dataURLtoFile (b : Browser.t) (dataurl filename : string)
  : JS.result File.t :=
  let arr := JS.split_comma dataurl in
  if Z.of_nat (List.length arr) <? 2 then
    JS.Throw (JS.ErrorObject "Invalid data URL")
  else
    match match_mime (nth 0 arr "") with
    | None => JS.Throw (JS.ErrorObject "Could not parse MIME type from data URL")
    | Some mime =>
        if negb (JS.truthy mime) then
          JS.Throw (JS.ErrorObject "Could not parse MIME type from data URL")
        else
          let? bstr := Browser.atob b (nth 1 arr "") in
          JS.Ok (File.make bstr filename mime)
    end.

(** The canvas [cropImageToFile] has drawn when it calls [toDataURL]
    ([imageSmoothingQuality] does not change its size or what is drawn
    where). *)
Definition cropCanvas (b : Browser.t) (image : Img.t) (crop : PixelCrop.t)
  : JS.result Canvas.t :=
  let canvas := Canvas.create in
  let scaleX := (Img.naturalWidth image / Img.width image)%float in
  let scaleY := (Img.naturalHeight image / Img.height image)%float in
  let canvas := Canvas.set_width (PixelCrop.width crop) canvas in
  let canvas := Canvas.set_height (PixelCrop.height crop) canvas in
  if negb (Browser.getContext2d b) then
    JS.Throw (JS.ErrorObject "Could not get canvas context")
  else
    let pixelRatio := JS.or_one (Browser.devicePixelRatio b) in
    let canvas := Canvas.set_width (PixelCrop.width crop * pixelRatio)%float canvas in
    let canvas := Canvas.set_height (PixelCrop.height crop * pixelRatio)%float canvas in
    let canvas := Canvas.draw (Canvas.setTransform pixelRatio 0 0 pixelRatio 0 0) canvas in
    let canvas :=
      Canvas.draw
        (Canvas.drawImageFrom
           (PixelCrop.x crop * scaleX)%float
           (PixelCrop.y crop * scaleY)%float
           (PixelCrop.width crop * scaleX)%float
           (PixelCrop.height crop * scaleY)%float
           0 0 (PixelCrop.width crop) (PixelCrop.height crop))
        canvas in
    JS.Ok canvas.

Definition cropImageToFile (b : Browser.t) (image : Img.t) (crop : PixelCrop.t)
    (fileName : string) : JS.result File.t :=
  let? canvas := cropCanvas b image crop in
  dataURLtoFile b (Browser.toDataURL b canvas "image/png") fileName.

(** *** The passport sheet *)

Inductive SheetSize := Size4x6 | Size5x7 | SizeA4.
Inductive Layout := portrait | landscape.

Definition DPI : float := 300.
Definition MM_TO_IN : float := 0.0393701.

(** [SIZES[sheetSize]], as [(w, h)] in inches. *)
Definition SIZES (sheetSize : SheetSize) : float * float :=
  match sheetSize with
  | Size4x6 => (4, 6)
  | Size5x7 => (5, 7)
  | SizeA4 => (8.27, 11.69)
  end%float.

Definition PASSPORT_SIZE_MM : float * float := (35, 45)%float.

(** The lengths, in pixels, the sheet is laid out with. *)
Record Geometry := {
  sheetW_px : float;
  sheetH_px : float;
  photoW_px : float;
  photoH_px : float;
  margin_px : float
}.

Definition geometry (sheetSize : SheetSize) (layout : Layout) : Geometry :=
  let '(sheetW_in, sheetH_in) := SIZES sheetSize in
  let '(sheetW_in, sheetH_in) :=
    match layout with
    | landscape => (sheetH_in, sheetW_in)
    | portrait => (sheetW_in, sheetH_in)
    end in
  {| sheetW_px := sheetW_in * DPI;
     sheetH_px := sheetH_in * DPI;
     photoW_px := fst PASSPORT_SIZE_MM * MM_TO_IN * DPI;
     photoH_px := snd PASSPORT_SIZE_MM * MM_TO_IN * DPI;
     margin_px := 0.1 * DPI |}%float.

(** The variables of the drawing loop; [stopped] is set by its [break]. *)
Record Loop := {
  lx : float;
  ly : float;
  canvas : Canvas.t;
  stopped : bool
}.

(** One round of the [for] loop of [img.onload]. *)
Definition loop_body (g : Geometry) (st : Loop) : Loop :=
  if stopped st then st else
  let '(x, y) :=
    if (sheetW_px g <? lx st + photoW_px g + margin_px g)%float
    then (margin_px g, (ly st + (photoH_px g + margin_px g))%float)
    else (lx st, ly st) in
  if (sheetH_px g <? y + photoH_px g + margin_px g)%float then
    {| lx := x; ly := y; canvas := canvas st; stopped := true |}
  else
    let c := Canvas.draw (Canvas.strokeRect "#cccccc" 1 x y (photoW_px g) (photoH_px g))
               (canvas st) in
    let c := Canvas.draw (Canvas.drawImage x y (photoW_px g) (photoH_px g)) c in
    {| lx := (x + (photoW_px g + margin_px g))%float; ly := y;
       canvas := c; stopped := false |}.

(** [for (let i = 0; i < n; i++) body]. *)
Fixpoint for_loop (n : nat) (g : Geometry) (st : Loop) : Loop :=
  match n with
  | O => st
  | S k => for_loop k g (loop_body g st)
  end.

(** The white page [handleSheetGenerate] prepares before the image loads. *)
Definition blankSheet (g : Geometry) : Canvas.t :=
  let canvas := Canvas.create in
  let canvas := Canvas.set_width (sheetW_px g) canvas in
  let canvas := Canvas.set_height (sheetH_px g) canvas in
  Canvas.draw (Canvas.fillRect "white" 0 0 (sheetW_px g) (sheetH_px g)) canvas.

(** The variables of the loop when it starts:
    [let x = margin_px; let y = margin_px;] and the white page. *)
Definition loop_init (g : Geometry) : Loop :=
  {| lx := margin_px g; ly := margin_px g;
     canvas := blankSheet g; stopped := false |}.

(** The sheet [img.onload] has drawn when it calls [toDataURL];
    [photoCount] is the number of rounds [i < photoCount] allows. *)
Definition composeSheet (sheetSize : SheetSize) (layout : Layout)
    (photoCount : Z) : Canvas.t :=
  let g := geometry sheetSize layout in
  canvas (for_loop (Z.to_nat photoCount) g (loop_init g)).

(** Where the photos of a canvas are, in drawing order. *)
Fixpoint photos (ops : list Canvas.Op) : list (float * float) :=
  match ops with
  | [] => []
  | Canvas.drawImage dx dy _ _ :: rest => (dx, dy) :: photos rest
  | _ :: rest => photos rest
  end.

End Raster.


(** ** The application controller ([App.tsx]) *)

Module Tab.
Inductive t := retouch | adjust | filters | crop | enhance | passport.

Definition eqb (a b : t) : bool :=
  match a, b with
  | retouch, retouch | adjust, adjust | filters, filters
  | crop, crop | enhance, enhance | passport, passport => true
  | _, _ => false
  end.
End Tab.

Module PassportStep.
Inductive t := idle | cropping | background | sheet.
End PassportStep.

Module App.

(** The [useState] variables of [App]. [undefined] and [null] are [None]. *)
Record State := {
  history : list File.t;
  historyIndex : Z;
  prompt : string;
  isLoading : bool;
  error : option string;
  editHotspot : option (float * float);
  displayHotspot : option (float * float);
  activeTab : Tab.t;
  crop : option PixelCrop.t;
  completedCrop : option PixelCrop.t;
  aspect : option float;
  isComparing : bool;
  adjustments : AdjustmentPanel.Adjustments;
  passportStep : PassportStep.t;
  passportCroppedImage : option File.t
}.

(** The state at mount. *)
Definition initial : State :=
  {| history := []; historyIndex := -1; prompt := ""; isLoading := false;
     error := None; editHotspot := None; displayHotspot := None;
     activeTab := Tab.retouch; crop := None; completedCrop := None;
     aspect := None; isComparing := false;
     adjustments := AdjustmentPanel.initialAdjustments;
     passportStep := PassportStep.idle; passportCroppedImage := None |}.

(** *** The state setters *)

Definition setHistory (v : list File.t) (s : State) : State :=
  {| history := v; historyIndex := historyIndex s; prompt := prompt s;
     isLoading := isLoading s; error := error s; editHotspot :=
     editHotspot s; displayHotspot := displayHotspot s; activeTab :=
     activeTab s; crop := crop s; completedCrop := completedCrop s; aspect
     := aspect s; isComparing := isComparing s; adjustments := adjustments
     s; passportStep := passportStep s; passportCroppedImage :=
     passportCroppedImage s |}.

Definition setHistoryIndex (v : Z) (s : State) : State :=
  {| history := history s; historyIndex := v; prompt := prompt s;
     isLoading := isLoading s; error := error s; editHotspot :=
     editHotspot s; displayHotspot := displayHotspot s; activeTab :=
     activeTab s; crop := crop s; completedCrop := completedCrop s; aspect
     := aspect s; isComparing := isComparing s; adjustments := adjustments
     s; passportStep := passportStep s; passportCroppedImage :=
     passportCroppedImage s |}.

Definition setPrompt (v : string) (s : State) : State :=
  {| history := history s; historyIndex := historyIndex s; prompt := v;
     isLoading := isLoading s; error := error s; editHotspot :=
     editHotspot s; displayHotspot := displayHotspot s; activeTab :=
     activeTab s; crop := crop s; completedCrop := completedCrop s; aspect
     := aspect s; isComparing := isComparing s; adjustments := adjustments
     s; passportStep := passportStep s; passportCroppedImage :=
     passportCroppedImage s |}.

Definition setIsLoading (v : bool) (s : State) : State :=
  {| history := history s; historyIndex := historyIndex s; prompt :=
     prompt s; isLoading := v; error := error s; editHotspot :=
     editHotspot s; displayHotspot := displayHotspot s; activeTab :=
     activeTab s; crop := crop s; completedCrop := completedCrop s; aspect
     := aspect s; isComparing := isComparing s; adjustments := adjustments
     s; passportStep := passportStep s; passportCroppedImage :=
     passportCroppedImage s |}.

Definition setError (v : option string) (s : State) : State :=
  {| history := history s; historyIndex := historyIndex s; prompt :=
     prompt s; isLoading := isLoading s; error := v; editHotspot :=
     editHotspot s; displayHotspot := displayHotspot s; activeTab :=
     activeTab s; crop := crop s; completedCrop := completedCrop s; aspect
     := aspect s; isComparing := isComparing s; adjustments := adjustments
     s; passportStep := passportStep s; passportCroppedImage :=
     passportCroppedImage s |}.

Definition setEditHotspot (v : option (float * float)) (s : State) : State :=
  {| history := history s; historyIndex := historyIndex s; prompt :=
     prompt s; isLoading := isLoading s; error := error s; editHotspot :=
     v; displayHotspot := displayHotspot s; activeTab := activeTab s; crop
     := crop s; completedCrop := completedCrop s; aspect := aspect s;
     isComparing := isComparing s; adjustments := adjustments s;
     passportStep := passportStep s; passportCroppedImage :=
     passportCroppedImage s |}.

Definition setDisplayHotspot (v : option (float * float)) (s : State) : State :=
  {| history := history s; historyIndex := historyIndex s; prompt :=
     prompt s; isLoading := isLoading s; error := error s; editHotspot :=
     editHotspot s; displayHotspot := v; activeTab := activeTab s; crop :=
     crop s; completedCrop := completedCrop s; aspect := aspect s;
     isComparing := isComparing s; adjustments := adjustments s;
     passportStep := passportStep s; passportCroppedImage :=
     passportCroppedImage s |}.

Definition setActiveTab (v : Tab.t) (s : State) : State :=
  {| history := history s; historyIndex := historyIndex s; prompt :=
     prompt s; isLoading := isLoading s; error := error s; editHotspot :=
     editHotspot s; displayHotspot := displayHotspot s; activeTab := v;
     crop := crop s; completedCrop := completedCrop s; aspect := aspect s;
     isComparing := isComparing s; adjustments := adjustments s;
     passportStep := passportStep s; passportCroppedImage :=
     passportCroppedImage s |}.

Definition setCrop (v : option PixelCrop.t) (s : State) : State :=
  {| history := history s; historyIndex := historyIndex s; prompt :=
     prompt s; isLoading := isLoading s; error := error s; editHotspot :=
     editHotspot s; displayHotspot := displayHotspot s; activeTab :=
     activeTab s; crop := v; completedCrop := completedCrop s; aspect :=
     aspect s; isComparing := isComparing s; adjustments := adjustments s;
     passportStep := passportStep s; passportCroppedImage :=
     passportCroppedImage s |}.

Definition setCompletedCrop (v : option PixelCrop.t) (s : State) : State :=
  {| history := history s; historyIndex := historyIndex s; prompt :=
     prompt s; isLoading := isLoading s; error := error s; editHotspot :=
     editHotspot s; displayHotspot := displayHotspot s; activeTab :=
     activeTab s; crop := crop s; completedCrop := v; aspect := aspect s;
     isComparing := isComparing s; adjustments := adjustments s;
     passportStep := passportStep s; passportCroppedImage :=
     passportCroppedImage s |}.

Definition setAspect (v : option float) (s : State) : State :=
  {| history := history s; historyIndex := historyIndex s; prompt :=
     prompt s; isLoading := isLoading s; error := error s; editHotspot :=
     editHotspot s; displayHotspot := displayHotspot s; activeTab :=
     activeTab s; crop := crop s; completedCrop := completedCrop s; aspect
     := v; isComparing := isComparing s; adjustments := adjustments s;
     passportStep := passportStep s; passportCroppedImage :=
     passportCroppedImage s |}.

Definition setIsComparing (v : bool) (s : State) : State :=
  {| history := history s; historyIndex := historyIndex s; prompt :=
     prompt s; isLoading := isLoading s; error := error s; editHotspot :=
     editHotspot s; displayHotspot := displayHotspot s; activeTab :=
     activeTab s; crop := crop s; completedCrop := completedCrop s; aspect
     := aspect s; isComparing := v; adjustments := adjustments s;
     passportStep := passportStep s; passportCroppedImage :=
     passportCroppedImage s |}.

Definition setAdjustments (v : AdjustmentPanel.Adjustments) (s : State) : State :=
  {| history := history s; historyIndex := historyIndex s; prompt :=
     prompt s; isLoading := isLoading s; error := error s; editHotspot :=
     editHotspot s; displayHotspot := displayHotspot s; activeTab :=
     activeTab s; crop := crop s; completedCrop := completedCrop s; aspect
     := aspect s; isComparing := isComparing s; adjustments := v;
     passportStep := passportStep s; passportCroppedImage :=
     passportCroppedImage s |}.

Definition setPassportStep (v : PassportStep.t) (s : State) : State :=
  {| history := history s; historyIndex := historyIndex s; prompt :=
     prompt s; isLoading := isLoading s; error := error s; editHotspot :=
     editHotspot s; displayHotspot := displayHotspot s; activeTab :=
     activeTab s; crop := crop s; completedCrop := completedCrop s; aspect
     := aspect s; isComparing := isComparing s; adjustments := adjustments
     s; passportStep := v; passportCroppedImage := passportCroppedImage s |}.

Definition setPassportCroppedImage (v : option File.t) (s : State) : State :=
  {| history := history s; historyIndex := historyIndex s; prompt :=
     prompt s; isLoading := isLoading s; error := error s; editHotspot :=
     editHotspot s; displayHotspot := displayHotspot s; activeTab :=
     activeTab s; crop := crop s; completedCrop := completedCrop s; aspect
     := aspect s; isComparing := isComparing s; adjustments := adjustments
     s; passportStep := passportStep s; passportCroppedImage := v |}.

(** [s |> f |> g]: the updates a handler queues, in the order it queues
    them; a later update of a variable overrides an earlier one. *)
Notation "s |> f" := (f s) (at level 45, left associativity, only parsing).

Definition currentImage (s : State) : option File.t :=
  JS.index (history s) (historyIndex s).

Definition originalImage (s : State) : option File.t :=
  JS.index (history s) 0.

(** The object URL of the current image, kept by an effect: there is one
    exactly when there is a current image. It is represented by the image. *)
Definition currentImageUrl (s : State) : option File.t := currentImage s.

Definition resetTransientState (s : State) : State :=
  s |> setCrop None
    |> setCompletedCrop None
    |> setEditHotspot None
    |> setDisplayHotspot None
    |> setAdjustments AdjustmentPanel.initialAdjustments.

(** The effect on [activeTab]; it runs after a render in which [activeTab]
    has changed. *)
Definition activeTabEffect (s : State) : State :=
  match activeTab s with
  | Tab.passport =>
      s |> setPassportStep PassportStep.cropping
        |> setAspect (Some (7 / 9)%float)
        |> resetTransientState
  | _ =>
      s |> setPassportStep PassportStep.idle
        |> setPassportCroppedImage None
        |> setAspect None
  end.

Definition canUndo (s : State) : bool := 0 <? historyIndex s.

Definition canRedo (s : State) : bool :=
  historyIndex s <? Z.of_nat (List.length (history s)) - 1.

(** [addImageToHistory]. The callback reads [history] and [historyIndex]
    from the render [cap] it was created in; its updates apply to the state
    [s] at the time it runs. In a handler without [await] the two are the
    same state. *)
Definition addImageToHistory (cap : State) (newImageFile : File.t)
    (resetAdjustmentsPreview : bool) (s : State) : State :=
  let newHistory :=
    JS.push (JS.slice0 (history cap) (historyIndex cap + 1)) newImageFile in
  s |> setHistory newHistory
    |> setHistoryIndex (Z.of_nat (List.length newHistory) - 1)
    |> resetTransientState
    |> (if resetAdjustmentsPreview
        then setAdjustments AdjustmentPanel.initialAdjustments
        else fun s => s).

Definition handleImageUpload (file : File.t) (s : State) : State :=
  s |> setError None
    |> setHistory [file]
    |> setHistoryIndex 0
    |> setActiveTab Tab.retouch
    |> resetTransientState
    |> setPassportStep PassportStep.idle
    |> setPassportCroppedImage None.

(** *** Calls that complete later *)

(** A call a handler has issued and awaits: a request to the generator, or
    the decoding of the source of a sheet. *)
Inductive Call :=
| generateEditedImage (image : File.t) (prompt : string) (hotspot : float * float)
| generateFilteredImage (image : File.t) (filterPrompt : string)
| generateAdjustedImage (image : File.t) (adjustmentPrompt : string)
| generateAutoAdjustedImage (image : File.t)
| generateUpscaledImage (image : File.t)
| generatePassportPhoto (image : File.t) (color : string)
| decodeImage (src : File.t) (sheetSize : Raster.SheetSize)
    (layout : Raster.Layout) (photoCount : Z).

(** A call in flight, with the render its handler was created in. *)
Record Pending := {
  call : Call;
  captured : State
}.

(** How a call ends: a promise is fulfilled with a data URL or rejected with
    what was thrown; a decode fires [onload] ([fulfilled]) or [onerror]
    ([rejected]). *)
Inductive Outcome :=
| fulfilled (value : string)
| rejected (reason : JS.Thrown).

Definition awaited (o : Outcome) : JS.result string :=
  match o with
  | fulfilled v => JS.Ok v
  | rejected t => JS.Throw t
  end.

(** [err instanceof Error ? err.message : otherwise]. *)
Definition message (err : JS.Thrown) (otherwise : string) : string :=
  match err with
  | JS.ErrorObject m => m
  | JS.NonError => otherwise
  end.

(** [!prompt.trim()]: nothing but white space and line terminators. *)
Fixpoint blank (p : string) : bool :=
  match p with
  | EmptyString => true
  | String _ r =>
      match JS.space_width p with
      | 1%nat => blank r
      | 2%nat => match r with String _ r' => blank r' | EmptyString => false end
      | 3%nat =>
          match r with
          | String _ (String _ r'') => blank r''
          | _ => false
          end
      | _ => false
      end
  end.

(** The part of an [async] handler after its [await]:
    [try { ...; onOk file } catch (err) { setError(...) } finally
    { setIsLoading(false) }]. *)
Definition tryCommit (b : Browser.t) (o : Outcome) (fileName : string)
    (onOk : File.t -> State -> State) (failed otherwise : string)
    (s : State) : State :=
  match (let? url := awaited o in Raster.dataURLtoFile b url fileName) with
  | JS.Ok file => s |> onOk file |> setIsLoading false
  | JS.Throw err =>
      s |> setError (Some (failed ++ " " ++ message err otherwise))
        |> setIsLoading false
  end.

Definition handleGenerate (s : State) : State * option Pending :=
  match currentImage s with
  | None => (s |> setError (Some "No image loaded to edit."), None)
  | Some image =>
      if blank (prompt s) then
        (s |> setError (Some "Please enter a description for your edit."), None)
      else
        match editHotspot s with
        | None =>
            (s |> setError
                    (Some "Please click on the image to select an area to edit."),
             None)
        | Some hotspot =>
            (s |> setIsLoading true |> setError None,
             Some {| call := generateEditedImage image (prompt s) hotspot;
                     captured := s |})
        end
  end.

Definition handleGenerate_resume (b : Browser.t) (cap : State) (o : Outcome)
  : State -> State :=
  tryCommit b o ("edited-" ++ Browser.now b ++ ".png")
    (fun file s => s |> addImageToHistory cap file false |> setPrompt "")
    "Failed to generate the image." "An unknown error occurred.".

(** The shape the other generator handlers share:
    [if (!image) return; setIsLoading(true); setError(null); await ...]. *)
Definition issue (image : option File.t) (c : File.t -> Call) (s : State)
  : State * option Pending :=
  match image with
  | None => (s, None)
  | Some f =>
      (s |> setIsLoading true |> setError None,
       Some {| call := c f; captured := s |})
  end.

Definition handleApplyFilter (filterPrompt : string) (s : State) :=
  issue (currentImage s) (fun f => generateFilteredImage f filterPrompt) s.

Definition handleApplyFilter_resume (b : Browser.t) (cap : State) (o : Outcome)
  : State -> State :=
  tryCommit b o ("filtered-" ++ Browser.now b ++ ".png")
    (fun file => addImageToHistory cap file false)
    "Failed to apply the filter." "Unknown error".

Definition handleApplyAdjustment (adjustmentPrompt : string) (s : State) :=
  issue (currentImage s) (fun f => generateAdjustedImage f adjustmentPrompt) s.

Definition handleApplyAdjustment_resume (b : Browser.t) (cap : State)
    (o : Outcome) : State -> State :=
  tryCommit b o ("adjusted-" ++ Browser.now b ++ ".png")
    (fun file => addImageToHistory cap file true)
    "Failed to apply adjustment." "Unknown error".

Definition handleAutoAdjust (s : State) :=
  issue (currentImage s) generateAutoAdjustedImage s.

Definition handleAutoAdjust_resume (b : Browser.t) (cap : State) (o : Outcome)
  : State -> State :=
  tryCommit b o ("auto-adjusted-" ++ Browser.now b ++ ".png")
    (fun file => addImageToHistory cap file true)
    "Failed to auto-adjust." "Unknown error".

Definition handleUpscale (s : State) :=
  issue (currentImage s) generateUpscaledImage s.

Definition handleUpscale_resume (b : Browser.t) (cap : State) (o : Outcome)
  : State -> State :=
  tryCommit b o ("upscaled-" ++ Browser.now b ++ ".png")
    (fun file => addImageToHistory cap file false)
    "Failed to upscale image." "Unknown error".

Definition handlePassportBgChange (color : string) (s : State) :=
  issue (passportCroppedImage s) (fun f => generatePassportPhoto f color) s.

Definition handlePassportBgChange_resume (b : Browser.t) (cap : State)
    (o : Outcome) : State -> State :=
  tryCommit b o ("passport-" ++ Browser.now b ++ ".png")
    (fun file s =>
       s |> addImageToHistory cap file false
         |> setPassportStep PassportStep.sheet)
    "Failed to change passport background." "Unknown error".

(** *** Cropping *)

Definition handleApplyCrop (b : Browser.t) (s : State) : State :=
  match completedCrop s, Browser.imgRef b with
  | Some c, Some img =>
      match Raster.cropImageToFile b img c ("cropped-" ++ Browser.now b ++ ".png") with
      | JS.Ok newImageFile => s |> addImageToHistory s newImageFile false
      | JS.Throw err =>
          s |> setError (Some ("Failed to apply crop. " ++ message err "Unknown error"))
      end
  | _, _ => s
  end.

Definition handlePassportCrop (b : Browser.t) (s : State) : State :=
  match completedCrop s, Browser.imgRef b with
  | Some c, Some img =>
      match Raster.cropImageToFile b img c
              ("passport-crop-" ++ Browser.now b ++ ".png") with
      | JS.Ok croppedFile =>
          s |> setPassportCroppedImage (Some croppedFile)
            |> setPassportStep PassportStep.background
            |> resetTransientState
      | JS.Throw err =>
          s |> setError
                 (Some ("Failed to crop for passport. " ++ message err "Unknown error"))
      end
  | _, _ => s
  end.

(** *** The passport sheet *)

Definition sheetSize_name (z : Raster.SheetSize) : string :=
  match z with
  | Raster.Size4x6 => "4x6"
  | Raster.Size5x7 => "5x7"
  | Raster.SizeA4 => "A4"
  end.

Definition layout_name (l : Raster.Layout) : string :=
  match l with
  | Raster.portrait => "portrait"
  | Raster.landscape => "landscape"
  end.

Definition handleSheetGenerate (b : Browser.t) (sheetSize : Raster.SheetSize)
    (layout : Raster.Layout) (photoCount : Z) (s : State)
  : State * option Pending :=
  match currentImageUrl s with
  | None => (s, None)
  | Some url =>
      let s' := s |> setIsLoading true in
      if negb (Browser.getContext2d b) then
        (s' |> setError (Some "Could not create canvas for sheet.")
            |> setIsLoading false,
         None)
      else
        (s', Some {| call := decodeImage url sheetSize layout photoCount;
                     captured := s |})
  end.

(** The file [img.onload] builds from the sheet it has drawn. *)
Definition sheetFile (b : Browser.t) (sheetSize : Raster.SheetSize)
    (layout : Raster.Layout) (photoCount : Z) : JS.result File.t :=
  let canvas := Raster.composeSheet sheetSize layout photoCount in
  Raster.dataURLtoFile b (Browser.toDataURL b canvas "image/jpeg")
    ("passport-sheet-" ++ sheetSize_name sheetSize ++ "-" ++ layout_name layout
       ++ "-" ++ Browser.now b ++ ".jpg").

(** [img.onload]. An exception in it is not caught: the updates after the
    throwing statement are not queued. *)
Definition sheet_onload (b : Browser.t) (cap : State)
    (sheetSize : Raster.SheetSize) (layout : Raster.Layout) (photoCount : Z)
    (s : State) : State :=
  match sheetFile b sheetSize layout photoCount with
  | JS.Ok file =>
      s |> addImageToHistory cap file false
        |> setIsLoading false
        |> setPassportStep PassportStep.idle
  | JS.Throw _ => s
  end.

(** [img.onerror]. *)
Definition sheet_onerror (s : State) : State :=
  s |> setError (Some "Could not load image to generate sheet.")
    |> setIsLoading false.

Definition handlePassportReset (s : State) : State :=
  s |> setPassportStep PassportStep.cropping
    |> setPassportCroppedImage None
    |> resetTransientState.

(** *** History navigation *)

Definition handleUndo (s : State) : State :=
  if canUndo s then
    s |> setHistoryIndex (historyIndex s - 1) |> resetTransientState
  else s.

Definition handleRedo (s : State) : State :=
  if canRedo s then
    s |> setHistoryIndex (historyIndex s + 1) |> resetTransientState
  else s.

Definition handleReset (s : State) : State :=
  if 0 <? Z.of_nat (List.length (history s)) then
    s |> setHistoryIndex 0 |> setError None |> resetTransientState
  else s.

Definition handleUploadNew (s : State) : State :=
  s |> setHistory []
    |> setHistoryIndex (-1)
    |> setError None
    |> setPrompt ""
    |> resetTransientState
    |> setPassportStep PassportStep.idle
    |> setPassportCroppedImage None.

(** The hotspots [handleImageClick] sets, given the two points it computes
    from the click. *)
Definition handleImageClick (display source : float * float) (s : State)
  : State :=
  match activeTab s with
  | Tab.retouch => s |> setDisplayHotspot (Some display) |> setEditHotspot (Some source)
  | _ => s
  end.

(** *** The event loop *)

(** The continuation of a call in flight. *)
Definition settle (b : Browser.t) (p : Pending) (o : Outcome) : State -> State :=
  let cap := captured p in
  match call p with
  | generateEditedImage _ _ _ => handleGenerate_resume b cap o
  | generateFilteredImage _ _ => handleApplyFilter_resume b cap o
  | generateAdjustedImage _ _ => handleApplyAdjustment_resume b cap o
  | generateAutoAdjustedImage _ => handleAutoAdjust_resume b cap o
  | generateUpscaledImage _ => handleUpscale_resume b cap o
  | generatePassportPhoto _ _ => handlePassportBgChange_resume b cap o
  | decodeImage _ sheetSize layout photoCount =>
      match o with
      | fulfilled _ => sheet_onload b cap sheetSize layout photoCount
      | rejected _ => sheet_onerror
      end
  end.

(** What the user and the outside world can do. *)
Inductive Event :=
| FileSelect (file : File.t)
| TabClick (tab : Tab.t)
| PromptInput (text : string)
| ImageClick (display source : float * float)
| CropChange (c : PixelCrop.t)
| CropComplete (c : PixelCrop.t)
| SetAspect (a : option float)
| AdjustmentChange (a : AdjustmentPanel.Adjustments)
| DismissError
| Comparing (on : bool)
| Generate
| ApplyFilter (filterPrompt : string)
| ApplyAdjustment (adjustmentPrompt : string)
| AutoAdjust
| Upscale
| ApplyCrop
| PassportCrop
| PassportBgChange (color : string)
| SheetGenerate (sheetSize : Raster.SheetSize) (layout : Raster.Layout)
    (photoCount : Z)
| PassportReset
| ClickUndo
| ClickRedo
| ClickReset
| ClickUploadNew
| Settle (k : nat) (o : Outcome).

(** The application and the calls it awaits. *)
Record World := {
  app : State;
  inflight : list Pending
}.

Definition start : World := {| app := initial; inflight := [] |}.

Definition now (f : State -> State) (w : World) : World :=
  {| app := f (app w); inflight := inflight w |}.

Definition later (f : State -> State * option Pending) (w : World) : World :=
  let '(s, p) := f (app w) in
  {| app := s;
     inflight := match p with
                 | Some c => JS.push (inflight w) c
                 | None => inflight w
                 end |}.

Fixpoint remove_nth {A : Type} (k : nat) (l : list A) : list A :=
  match l, k with
  | [], _ => []
  | _ :: rest, O => rest
  | x :: rest, S k' => x :: remove_nth k' rest
  end.

(** The handler an event runs. *)
Definition handle (b : Browser.t) (e : Event) (w : World) : World :=
  match e with
  | FileSelect file => now (handleImageUpload file) w
  | TabClick tab => now (setActiveTab tab) w
  | PromptInput text => now (setPrompt text) w
  | ImageClick display source => now (handleImageClick display source) w
  | CropChange c => now (setCrop (Some c)) w
  | CropComplete c => now (setCompletedCrop (Some c)) w
  | SetAspect a => now (setAspect a) w
  | AdjustmentChange a => now (setAdjustments a) w
  | DismissError => now (setError None) w
  | Comparing on => now (setIsComparing on) w
  | Generate => later handleGenerate w
  | ApplyFilter filterPrompt => later (handleApplyFilter filterPrompt) w
  | ApplyAdjustment adjustmentPrompt =>
      later (handleApplyAdjustment adjustmentPrompt) w
  | AutoAdjust => later handleAutoAdjust w
  | Upscale => later handleUpscale w
  | ApplyCrop => now (handleApplyCrop b) w
  | PassportCrop => now (handlePassportCrop b) w
  | PassportBgChange color => later (handlePassportBgChange color) w
  | SheetGenerate sheetSize layout photoCount =>
      later (handleSheetGenerate b sheetSize layout photoCount) w
  | PassportReset => now handlePassportReset w
  | ClickUndo => now handleUndo w
  | ClickRedo => now handleRedo w
  | ClickReset => now handleReset w
  | ClickUploadNew => now handleUploadNew w
  | Settle k o =>
      match nth_error (inflight w) k with
      | Some p =>
          {| app := settle b p o (app w); inflight := remove_nth k (inflight w) |}
      | None => w
      end
  end.

(** One turn of the event loop: the handler, then the render and the effect
    on [activeTab] when the tab has changed. *)
Definition step (b : Browser.t) (e : Event) (w : World) : World :=
  let w' := handle b e w in
  if Tab.eqb (activeTab (app w)) (activeTab (app w')) then w'
  else now activeTabEffect w'.

Fixpoint run (es : list (Browser.t * Event)) (w : World) : World :=
  match es with
  | [] => w
  | (b, e) :: rest => run rest (step b e w)
  end.

(** The states the application can be in. *)
Inductive reachable : World -> Prop :=
| reachable_start : reachable start
| reachable_step b e w : reachable w -> reachable (step b e w).

(** The history is empty with the cursor at [-1], or the cursor is an index
    of it. *)
Definition valid_cursor (s : State) : Prop :=
  (history s = [] /\ historyIndex s = -1) \/
  (0 <= historyIndex s < Z.of_nat (List.length (history s))).

(** *** What the view computes from the state *)

(** A slider value as the number it is in the program. *)
Definition num (z : Z) : float :=
  if z <? 0 then (- of_uint63 (Uint63.of_Z (- z)))%float
  else of_uint63 (Uint63.of_Z z).

(** [createFilterString]; [toString] is how a number prints in a template
    literal. *)
Definition createFilterString (toString : float -> string)
    (adj : AdjustmentPanel.Adjustments) : string :=
  let parts : list string := [] in
  let parts :=
    if negb (AdjustmentPanel.brightness adj =? 0) then
      JS.push parts
        ("brightness("
           ++ toString (1 + num (AdjustmentPanel.brightness adj) / 100)%float ++ ")")
    else parts in
  let parts :=
    if negb (AdjustmentPanel.contrast adj =? 0) then
      JS.push parts
        ("contrast("
           ++ toString (1 + num (AdjustmentPanel.contrast adj) / 100)%float ++ ")")
    else parts in
  let parts :=
    if negb (AdjustmentPanel.saturation adj =? 0) then
      JS.push parts
        ("saturate("
           ++ toString (1 + num (AdjustmentPanel.saturation adj) / 100)%float ++ ")")
    else parts in
  let parts :=
    if 0 <? AdjustmentPanel.temperature adj then
      JS.push parts
        ("sepia(" ++ toString (num (AdjustmentPanel.temperature adj) / 150)%float ++ ")")
    else if AdjustmentPanel.temperature adj <? 0 then
      JS.push parts
        ("hue-rotate("
           ++ toString (num (AdjustmentPanel.temperature adj) * 0.2)%float ++ "deg)")
    else parts in
  JS.join " " parts.

(** The [isCropping] property handed to the crop and the passport panel:
    [!!completedCrop?.width && completedCrop.width > 0]. *)
Definition isCropping (s : State) : bool :=
  match completedCrop s with
  | Some c =>
      (negb (is_zero (PixelCrop.width c) || is_nan (PixelCrop.width c))
       && (0 <? PixelCrop.width c)%float)%bool
  | None => false
  end.

(** The transient state as [resetTransientState] leaves it. *)
Definition transient_reset (s : State) : Prop :=
  crop s = None /\ completedCrop s = None /\
  editHotspot s = None /\ displayHotspot s = None /\
  adjustments s = AdjustmentPanel.initialAdjustments.

(** At [background] the workflow holds a cropped-passport image. *)
Definition background_has_image (s : State) : Prop :=
  passportStep s = PassportStep.background -> passportCroppedImage s <> None.

(** What a handler may do to the workflow: leave the step and the image as
    they are, leave the step somewhere else than [background], or leave an
    image. *)
Definition keeps_background (s s' : State) : Prop :=
  (passportStep s' = passportStep s /\
   passportCroppedImage s' = passportCroppedImage s) \/
  passportStep s' <> PassportStep.background \/
  passportCroppedImage s' <> None.

(** A handler either leaves the transient state reset or leaves the history
    and the cursor as they were. *)
Definition reset_or_same (s s' : State) : Prop :=
  transient_reset s' \/
  (history s' = history s /\ historyIndex s' = historyIndex s).

End App.

(** ** The passport panel ([PassportPanel]) *)

Module PassportPanel.

(** The [useState] variables of the panel. *)
Record Local := {
  backgroundColor : string;
  sheetSize : Raster.SheetSize;
  layout : Raster.Layout;
  photoCount : string
}.

Definition initial : Local :=
  {| backgroundColor := "White"; sheetSize := Raster.Size4x6;
     layout := Raster.portrait; photoCount := "8" |}.

(** The property a click calls, with its arguments. *)
Inductive Callback :=
| onCropConfirm
| onBackgroundChange (color : string)
| onSheetGenerate (sheetSize : Raster.SheetSize) (layout : Raster.Layout)
    (photoCount : float)
| onReset.

Definition digit (c : ascii) : option Z :=
  let n := Z.of_nat (nat_of_ascii c) in
  if ((48 <=? n) && (n <=? 57))%bool then Some (n - 48) else None.

(** The value of the longest prefix of decimal digits, after [acc]. *)
Fixpoint digits (s : string) (acc : option Z) : option Z :=
  match s with
  | EmptyString => acc
  | String c r =>
      match digit c with
      | Some d =>
          digits r (Some (10 * match acc with Some a => a | None => 0 end + d))
      | None => acc
      end
  end.

Fixpoint skip_space (s : string) : string :=
  match s with
  | EmptyString => s
  | String _ r =>
      match JS.space_width s with
      | 1%nat => skip_space r
      | 2%nat => match r with String _ r' => skip_space r' | EmptyString => s end
      | 3%nat =>
          match r with
          | String _ (String _ r'') => skip_space r''
          | _ => s
          end
      | _ => s
      end
  end.

(** The Number of the digits read, NaN when there is none. *)
Definition read (negative : bool) (s : string) : float :=
  match digits s None with
  | Some z =>
      if negative then (if z =? 0 then neg_zero else JS.number (- z))
      else JS.number z
  | None => nan
  end.

(** [parseInt(s, 10)]: white space, a sign, then digits up to the first
    character that is none; the integer read becomes a Number, the nearest
    one (ECMAScript lets an engine take the digits after the twentieth for
    zeros; here the integer is taken exactly). *)
Definition parseInt (s : string) : float :=
  match skip_space s with
  | String "-" r => read true r
  | String "+" r => read false r
  | t => read false t
  end.

(** A part of the panel is hidden unless the workflow is at its step. *)
Definition shown (part step : PassportStep.t) : bool :=
  match part, step with
  | PassportStep.cropping, PassportStep.cropping
  | PassportStep.background, PassportStep.background
  | PassportStep.sheet, PassportStep.sheet => true
  | _, _ => false
  end.

(** [disabled] of "Confirm Crop". *)
Definition confirm_disabled (isLoading isCropping : bool) : bool :=
  (isLoading || negb isCropping)%bool.

(** [disabled] of "Generate Printable Sheet". *)
Definition generate_disabled (isLoading : bool) (l : Local) : bool :=
  (isLoading || negb (JS.truthy (photoCount l))
   || (parseInt (photoCount l) <=? 0)%float)%bool.

(** [onClick] of "Generate Printable Sheet". *)
Definition generate_click (l : Local) : option Callback :=
  let count := parseInt (photoCount l) in
  if (negb (is_nan count) && (0 <? count)%float)%bool
  then Some (onSheetGenerate (sheetSize l) (layout l) count)
  else None.

(** "Start Over" is rendered outside [cropping] and [idle]. *)
Definition startOver_shown (step : PassportStep.t) : bool :=
  match step with
  | PassportStep.cropping | PassportStep.idle => false
  | _ => true
  end.

(** What a click on a button of the panel calls, as the panel is rendered
    for the state [s] of the application: nothing when the button is
    hidden or disabled. *)
Inductive Button := ConfirmCrop | ChangeBackground | GenerateSheet | StartOver.

Definition click (s : App.State) (l : Local) (button : Button)
  : option Callback :=
  match button with
  | ConfirmCrop =>
      if (shown PassportStep.cropping (App.passportStep s)
          && negb (confirm_disabled (App.isLoading s) (App.isCropping s)))%bool
      then Some onCropConfirm else None
  | ChangeBackground =>
      if (shown PassportStep.background (App.passportStep s)
          && negb (App.isLoading s))%bool
      then Some (onBackgroundChange (backgroundColor l)) else None
  | GenerateSheet =>
      if (shown PassportStep.sheet (App.passportStep s)
          && negb (generate_disabled (App.isLoading s) l))%bool
      then generate_click l else None
  | StartOver =>
      if (startOver_shown (App.passportStep s) && negb (App.isLoading s))%bool
      then Some onReset else None
  end.

(** The rounds [for (let i = 0; i < photoCount; i++)] can make: the least
    integer that is not below the number, none for a number that is not
    above zero or is NaN, and more than any finite number allows for
    [Infinity]. *)
Definition rounds (photoCount : float) : Z :=
  match Prim2SF photoCount with
  | S754_finite false m e =>
      match e with
      | Z0 => Zpos m
      | Zpos p => Z.shiftl (Zpos m) (Zpos p)
      | Zneg p => (Zpos m + 2 ^ Zpos p - 1) / 2 ^ Zpos p
      end
  | S754_infinity false => 2 ^ 1024
  | _ => 0
  end.

(** The event of the application a call of a property is. *)
Definition event (c : Callback) : App.Event :=
  match c with
  | onCropConfirm => App.PassportCrop
  | onBackgroundChange color => App.PassportBgChange color
  | onSheetGenerate sheetSize layout photoCount =>
      App.SheetGenerate sheetSize layout (rounds photoCount)
  | onReset => App.PassportReset
  end.

End PassportPanel.

(** ** Reference definitions

    What the specification says, written down independently of the code:
    the instruction the translator is to produce, and where the photos of a
    sheet are to be. *)

Module Reference.

Import AdjustmentPanel.

(** The intensity word of a magnitude: five tiers. *)
Definition tier (magnitude : Z) : string :=
  if magnitude <=? 20 then "subtly"
  else if magnitude <=? 40 then "slightly"
  else if magnitude <=? 60 then ""
  else if magnitude <=? 80 then "significantly"
  else "dramatically".

(** The feather descriptor: three tiers. *)
Definition feather (value : Z) : string :=
  if value <=? 25 then "with a hard, distinct edge"
  else if value <=? 75 then "with a medium, soft feather"
  else "with a very soft, gradual feather".

(** The phrase of a slider that is not zero. *)
Definition phrase (a : Adjustments) (k : AdjustmentKey) : string :=
  let v := get a k in
  let t := tier (Z.abs v) in
  let up := 0 <? v in
  match k with
  | Kbrightness => (if up then "increase" else "decrease") ++ " the brightness " ++ t
  | Kcontrast => (if up then "increase" else "decrease") ++ " the contrast " ++ t
  | Ksaturation =>
      (if up then "increase" else "decrease") ++ " the color saturation " ++ t
  | Ksharpness => (if up then "increase" else "decrease") ++ " the sharpness " ++ t
  | Ktemperature =>
      "make the image's color temperature " ++ t ++ " "
        ++ (if up then "warmer" else "cooler")
  | KcolorBalance =>
      "shift the color balance " ++ t ++ " towards "
        ++ (if up then "green/cyan" else "magenta/red")
  | KvignetteIntensity =>
      "add a " ++ t ++ " " ++ (if up then "dark" else "light") ++ " vignette "
        ++ feather (vignetteFeather a)
  | KvignetteFeather => ""
  end.

(** The sliders that speak, in the order of their phrases; the feather has
    no phrase of its own. *)
Definition speaking : list AdjustmentKey :=
  [Kbrightness; Kcontrast; Ksaturation; Ktemperature; Ksharpness;
   KcolorBalance; KvignetteIntensity].

(** The speaking sliders other than the vignette. *)
Definition plain : list AdjustmentKey :=
  [Kbrightness; Kcontrast; Ksaturation; Ktemperature; Ksharpness; KcolorBalance].

(** The phrases of a record: one for each speaking slider that is not zero. *)
Definition phrases (a : Adjustments) : list string :=
  map (phrase a) (filter (fun k => negb (get a k =? 0)) speaking).

(** ["p, q, and r"], for two phrases or more. *)
Fixpoint enumerate (ps : list string) : string :=
  match ps with
  | [] => ""
  | [p] => "and " ++ p
  | p :: rest => p ++ ", " ++ enumerate rest
  end.

Definition sentence (ps : list string) : string :=
  match ps with
  | [] => ""
  | [p] => "Apply the following adjustment: " ++ p ++ "."
  | _ => "Apply the following adjustments: " ++ enumerate ps ++ "."
  end.

Definition instruction (a : Adjustments) : string := sentence (phrases a).

(** Every slider that speaks is within [-100, 100]. *)
Definition in_range (a : Adjustments) : Prop :=
  forall k, In k speaking -> -100 <= get a k <= 100.

(** Whether the character [c] occurs in [s]. *)
Fixpoint occurs (c : ascii) (s : string) : bool :=
  match s with
  | EmptyString => false
  | String d r => (Ascii.eqb d c || occurs c r)%bool
  end.

(** A MIME type as a data URL carries it before [;base64,]: not empty, of
    the characters U+0020 to U+007E, without [;] and [,]. *)
Definition plain_mime (mime : string) : Prop :=
  mime <> "" /\ File.all File.printable mime = true /\
  occurs ";" mime = false /\ occurs "," mime = false.

(** What the HTML Standard says of [toDataURL] and [atob]: the data URL of
    a bitmap with pixels is [data:<type>;base64,<payload>], for the type
    asked for, in lower case, or for image/png when that type is not
    supported, and [atob] decodes the payload, which is base64 and so has
    no comma. *)
Definition standard (b : Browser.t) : Prop :=
  forall (c : Canvas.t) (type : string),
    Canvas.width c <> 0 -> Canvas.height c <> 0 ->
    exists mime payload bits,
      (mime = File.lowercase type \/ mime = "image/png") /\
      Browser.encode b c type = ("data:" ++ mime ++ ";base64," ++ payload)%string /\
      occurs "," payload = false /\
      Browser.atob b payload = JS.Ok bits.

Import Raster.

(** The number of photos in a row and of rows on each page. *)
Definition columns (sheetSize : SheetSize) (layout : Layout) : nat :=
  match sheetSize, layout with
  | Size4x6, portrait => 2
  | Size4x6, landscape => 3
  | Size5x7, portrait => 3
  | Size5x7, landscape => 4
  | SizeA4, portrait => 5
  | SizeA4, landscape => 7
  end.

Definition rows (sheetSize : SheetSize) (layout : Layout) : nat :=
  match sheetSize, layout with
  | Size4x6, portrait => 3
  | Size4x6, landscape => 2
  | Size5x7, portrait => 3
  | Size5x7, landscape => 2
  | SizeA4, portrait => 6
  | SizeA4, landscape => 4
  end.

Definition capacity (sheetSize : SheetSize) (layout : Layout) : nat :=
  (columns sheetSize layout * rows sheetSize layout)%nat.

(** The size of each page in pixels, at 300 dots per inch. *)
Definition page_pixels (sheetSize : SheetSize) (layout : Layout) : Z * Z :=
  match sheetSize, layout with
  | Size4x6, portrait => (1200, 1800)
  | Size4x6, landscape => (1800, 1200)
  | Size5x7, portrait => (1500, 2100)
  | Size5x7, landscape => (2100, 1500)
  | SizeA4, portrait => (2481, 3507)
  | SizeA4, landscape => (3507, 2481)
  end.

(** The offset reached from the margin after [k] advances by [stride]. *)
Definition offset (margin stride : float) (k : nat) : float :=
  Nat.iter k (fun p => (p + stride)%float) margin.

(** Where photo number [k] is, filling rows from the left and from the top:
    column [k mod columns], row [k / columns]. *)
Definition position (sheetSize : SheetSize) (layout : Layout) (k : nat)
  : float * float :=
  let g := geometry sheetSize layout in
  let cols := columns sheetSize layout in
  (offset (margin_px g) (photoW_px g + margin_px g) (k mod cols),
   offset (margin_px g) (photoH_px g + margin_px g) (k / cols)).

(** What is drawn on a white page for photos at [ps]: for each photo its
    outline, then the photo filling it. *)
Definition sheet_ops (g : Geometry) (ps : list (float * float))
  : list Canvas.Op :=
  Canvas.fillRect "white" 0 0 (sheetW_px g) (sheetH_px g)
  :: flat_map
       (fun p => [Canvas.strokeRect "#cccccc" 1 (fst p) (snd p)
                    (photoW_px g) (photoH_px g);
                  Canvas.drawImage (fst p) (snd p) (photoW_px g) (photoH_px g)])
       ps.

(** A photo at [p] lies on the page with the margin free on every side. *)
Definition on_page (g : Geometry) (p : float * float) : bool :=
  ((margin_px g <=? fst p)%float
   && (fst p + photoW_px g + margin_px g <=? sheetW_px g)%float
   && (margin_px g <=? snd p)%float
   && (snd p + photoH_px g + margin_px g <=? sheetH_px g)%float)%bool.

(** The photos at [p] and at [q] are a margin apart, side by side or one
    above the other. *)
Definition apart (g : Geometry) (p q : float * float) : bool :=
  ((fst p + photoW_px g + margin_px g <=? fst q)%float
   || (fst q + photoW_px g + margin_px g <=? fst p)%float
   || (snd p + photoH_px g + margin_px g <=? snd q)%float
   || (snd q + photoH_px g + margin_px g <=? snd p)%float)%bool.

(** [r] holds between every element of a list and every later one. *)
Fixpoint pairwise {A : Type} (r : A -> A -> bool) (l : list A) : bool :=
  match l with
  | [] => true
  | x :: t => (forallb (r x) t && pairwise r t)%bool
  end.

(** An item of length [size] placed at [pos] would go past [limit] less the
    margin. *)
Definition exceeds (pos size margin limit : float) : bool :=
  (limit <? pos + size + margin)%float.

End Reference.

(** ** Sample data *)

Module Samples.

Definition photo (n : string) : File.t :=
  {| File.name := n; File.type := "image/png"; File.bits := n |}.

(** A browser whose encoder and decoder are trivial. *)
Definition browser : Browser.t :=
  {| Browser.devicePixelRatio := 1;
     Browser.getContext2d := true;
     Browser.encode :=
       fun _ type => "data:" ++ File.lowercase type ++ ";base64,AAAA";
     Browser.atob := fun s => JS.Ok s;
     Browser.now := "0";
     Browser.imgRef :=
       Some {| Img.naturalWidth := 2000; Img.naturalHeight := 1000;
               Img.width := 1000; Img.height := 500 |} |}.


(** Three images in the history with the cursor on the second. *)
Definition edited : App.State :=
  App.setHistoryIndex 1
    (App.setHistory [photo "a"; photo "b"; photo "c"] App.initial).

(** A warm look with a dark, hard vignette. *)
Definition look : AdjustmentPanel.Adjustments :=
  {| AdjustmentPanel.brightness := 10; AdjustmentPanel.contrast := -50;
     AdjustmentPanel.saturation := 0; AdjustmentPanel.temperature := 70;
     AdjustmentPanel.sharpness := 0; AdjustmentPanel.vignetteIntensity := 50;
     AdjustmentPanel.vignetteFeather := 10; AdjustmentPanel.colorBalance := 0 |}.

(** U+00A0, the no-break space, and U+2003, the em space, as UTF-8. *)
Definition nbsp : string :=
  String (ascii_of_nat 194) (String (ascii_of_nat 160) "").

Definition em_space : string :=
  String (ascii_of_nat 226) (String (ascii_of_nat 128)
    (String (ascii_of_nat 131) "")).

Definition empty_crop : PixelCrop.t :=
  {| PixelCrop.x := 10; PixelCrop.y := 10;
     PixelCrop.width := 0; PixelCrop.height := 0 |}.

Definition crop70x90 : PixelCrop.t :=
  {| PixelCrop.x := 0; PixelCrop.y := 0;
     PixelCrop.width := 70; PixelCrop.height := 90 |}.

(** A passport session: upload, crop, new background, a sheet of four. *)
Definition passport_session : list (Browser.t * App.Event) :=
  map (pair browser)
    [App.FileSelect (photo "a");
     App.TabClick Tab.passport;
     App.CropComplete crop70x90;
     App.PassportCrop;
     App.PassportBgChange "white";
     App.Settle 0 (App.fulfilled "data:image/png;base64,AAAA");
     App.SheetGenerate Raster.Size4x6 Raster.portrait 4;
     App.Settle 0 (App.fulfilled "")].

End Samples.

(** * Properties *)

(** ** Lists, strings and numbers *)

Section Lists.

Context {A : Type}.

Lemma slice0_firstn (l : list A) (e : Z) :
  0 <= e -> JS.slice0 l e = firstn (Z.to_nat e) l.
Proof.
  intros He. unfold JS.slice0.
  destruct (Z.ltb_spec e 0); [lia|].
  destruct (Z.le_gt_cases e (Z.of_nat (List.length l))) as [Hle|Hgt].
  - now rewrite Z.min_l.
  - rewrite Z.min_r by lia. rewrite Nat2Z.id.
    rewrite !firstn_all2; trivial; lia.
Qed.

Lemma index_push_last (l : list A) (x : A) :
  JS.index (JS.push l x) (Z.of_nat (List.length (JS.push l x)) - 1) = Some x.
Proof.
  unfold JS.index, JS.push. rewrite length_app. simpl.
  destruct (Z.ltb_spec (Z.of_nat (List.length l + 1) - 1) 0); [lia|].
  replace (Z.to_nat _) with (List.length l) by lia.
  rewrite nth_error_app2 by lia. now rewrite Nat.sub_diag.
Qed.

Lemma pop_cons (x : A) (l : list A) :
  exists init last, JS.pop (x :: l) = Some (init, last).
Proof.
  revert x. induction l as [|y l IH]; intros x; simpl.
  - now exists [], x.
  - destruct (IH y) as (i & z & E). simpl in E. rewrite E. now exists (x :: i), z.
Qed.

End Lists.

Lemma append_assoc (a b c : string) : ((a ++ b) ++ c = a ++ (b ++ c))%string.
Proof. induction a as [|ch a IH]; simpl; [reflexivity | now rewrite IH]. Qed.

(** ** The edit history *)

Module HistoryFacts.

Import App.

Lemma history_reset s : history (resetTransientState s) = history s.
Proof. reflexivity. Qed.

Lemma undo_history s : history (handleUndo s) = history s.
Proof. unfold handleUndo. now destruct (canUndo s). Qed.

Lemma undo_index s :
  historyIndex (handleUndo s)
  = if canUndo s then historyIndex s - 1 else historyIndex s.
Proof. unfold handleUndo. now destruct (canUndo s). Qed.

Lemma redo_history s : history (handleRedo s) = history s.
Proof. unfold handleRedo. now destruct (canRedo s). Qed.

Lemma redo_index s :
  historyIndex (handleRedo s)
  = if canRedo s then historyIndex s + 1 else historyIndex s.
Proof. unfold handleRedo. now destruct (canRedo s). Qed.

Lemma commit_index cap f r s :
  historyIndex (addImageToHistory cap f r s)
  = Z.of_nat (List.length (history (addImageToHistory cap f r s))) - 1.
Proof. unfold addImageToHistory. now destruct r. Qed.

Lemma commit_history cap f r s :
  history (addImageToHistory cap f r s)
  = JS.push (JS.slice0 (history cap) (historyIndex cap + 1)) f.
Proof. unfold addImageToHistory. now destruct r. Qed.

(** The committed image is the current one, also behind setters of other
    variables. *)
Lemma commit_current cap f r s (k : State -> State) :
  (forall u, history (k u) = history u) ->
  (forall u, historyIndex (k u) = historyIndex u) ->
  history (k (addImageToHistory cap f r s))
  = JS.push (JS.slice0 (history cap) (historyIndex cap + 1)) f /\
  currentImage (k (addImageToHistory cap f r s)) = Some f.
Proof.
  intros Hh Hi. split.
  - rewrite Hh. apply commit_history.
  - unfold currentImage. rewrite Hh, Hi, commit_index, commit_history.
    apply index_push_last.
Qed.

(** Redoing [k] times from a cursor with at least [k] entries after it. *)
Lemma redo_iter k : forall s,
  historyIndex s + Z.of_nat k <= Z.of_nat (List.length (history s)) - 1 ->
  history (Nat.iter k handleRedo s) = history s /\
  historyIndex (Nat.iter k handleRedo s) = historyIndex s + Z.of_nat k.
Proof.
  induction k as [|k IH]; intros s Hk.
  - simpl. split; [reflexivity | lia].
  - destruct (IH s) as [Hh Hi]; [lia|].
    rewrite Nat.iter_succ, redo_history, redo_index.
    unfold canRedo. rewrite Hh, Hi.
    destruct (Z.ltb_spec (historyIndex s + Z.of_nat k)
                (Z.of_nat (List.length (history s)) - 1));
      [split; [reflexivity | lia] | lia].
Qed.

(** C1: committing an Image keeps the first cursor+1 entries of the history
    the callback holds, appends the Image and puts the cursor on it, the
    last index; nothing is then left to redo, in particular after a commit
    that follows any number of undos. *)
Theorem commit_truncates_and_appends (cap s : State) (image : File.t)
    (resetAdjustmentsPreview : bool) :
  -1 <= historyIndex cap ->
  let s' := addImageToHistory cap image resetAdjustmentsPreview s in
  history s'
  = (firstn (Z.to_nat (historyIndex cap + 1)) (history cap) ++ [image])%list /\
  historyIndex s' = Z.of_nat (List.length (history s')) - 1 /\
  currentImage s' = Some image /\
  canRedo s' = false /\
  forall n, let u := Nat.iter n handleUndo cap in
            canRedo (addImageToHistory u image resetAdjustmentsPreview u) = false.
Proof.
  intros Hc s'. subst s'.
  assert (R : forall c t, canRedo (addImageToHistory c image resetAdjustmentsPreview t) = false).
  { intros c t. unfold canRedo. rewrite commit_index. apply Z.ltb_irrefl. }
  repeat split.
  - rewrite commit_history, slice0_firstn by lia. reflexivity.
  - apply commit_index.
  - unfold currentImage. rewrite commit_index, commit_history.
    apply index_push_last.
  - apply R.
  - intros n u. apply R.
Qed.

Lemma commit_truncates_and_appends_witness :
  -1 <= historyIndex Samples.edited /\
  let s' := addImageToHistory Samples.edited (Samples.photo "d") false
              Samples.edited in
  history s' = [Samples.photo "a"; Samples.photo "b"; Samples.photo "d"] /\
  canRedo s' = false.
Proof.
  split; [simpl; lia|].
  destruct (commit_truncates_and_appends Samples.edited Samples.edited
              (Samples.photo "d") false) as (H & _ & _ & R & _).
  - simpl; lia.
  - split; [exact H | exact R].
Defined.

(** C4: on a history whose cursor is an index of it, undo does nothing at
    cursor 0 and otherwise moves the cursor back by one; redo does nothing
    at the last index and otherwise moves the cursor forward by one; so an
    undo followed by a redo, from a cursor above 0, gives back the cursor
    and the current Image. *)
Theorem undo_redo_cursor (s : State) :
  0 <= historyIndex s < Z.of_nat (List.length (history s)) ->
  (historyIndex s = 0 -> handleUndo s = s) /\
  (0 < historyIndex s ->
     history (handleUndo s) = history s /\
     historyIndex (handleUndo s) = historyIndex s - 1) /\
  (historyIndex s = Z.of_nat (List.length (history s)) - 1 -> handleRedo s = s) /\
  (historyIndex s < Z.of_nat (List.length (history s)) - 1 ->
     history (handleRedo s) = history s /\
     historyIndex (handleRedo s) = historyIndex s + 1) /\
  (0 < historyIndex s ->
     historyIndex (handleRedo (handleUndo s)) = historyIndex s /\
     currentImage (handleRedo (handleUndo s)) = currentImage s).
Proof.
  intros Hv.
  assert (U : 0 < historyIndex s -> canUndo s = true)
    by (intros; unfold canUndo; now apply Z.ltb_lt).
  assert (R : forall t, historyIndex t < Z.of_nat (List.length (history t)) - 1 ->
                        canRedo t = true)
    by (intros; unfold canRedo; now apply Z.ltb_lt).
  repeat split.
  - intros H0. unfold handleUndo, canUndo. now rewrite H0.
  - apply undo_history.
  - rewrite undo_index, U; trivial.
  - intros Hl. unfold handleRedo, canRedo. now rewrite Hl, Z.ltb_irrefl.
  - apply redo_history.
  - rewrite redo_index, R; trivial.
  - rewrite redo_index, R; rewrite ?undo_history, undo_index, U; trivial; lia.
  - unfold currentImage.
    rewrite redo_history, undo_history, redo_index, R;
      rewrite ?undo_history, undo_index, U; trivial; try lia.
    f_equal. lia.
Qed.

Lemma undo_redo_cursor_witness :
  historyIndex (handleUndo Samples.edited) = 0 /\
  currentImage (handleRedo (handleUndo Samples.edited))
  = currentImage Samples.edited.
Proof.
  destruct (undo_redo_cursor Samples.edited) as (_ & U & _ & _ & UR).
  - simpl; lia.
  - split.
    + apply U. simpl; lia.
    + apply UR. simpl; lia.
Defined.

(** C5: resetToOriginal does nothing on an empty history; otherwise it puts
    the cursor on 0 and leaves the sequence of Images as it is; so when the
    cursor was at a valid index n, reset followed by n redos gives back the
    Image that was current before the reset. *)
Theorem reset_keeps_history (s : State) :
  (history s = [] -> handleReset s = s) /\
  (history s <> [] ->
     history (handleReset s) = history s /\ historyIndex (handleReset s) = 0) /\
  (0 <= historyIndex s < Z.of_nat (List.length (history s)) ->
     let n := Z.to_nat (historyIndex s) in
     historyIndex (Nat.iter n handleRedo (handleReset s)) = historyIndex s /\
     currentImage (Nat.iter n handleRedo (handleReset s)) = currentImage s).
Proof.
  assert (N : history s <> [] ->
              history (handleReset s) = history s /\ historyIndex (handleReset s) = 0).
  { intros Hne. unfold handleReset.
    destruct (history s) as [|f l] eqn:E; [congruence|].
    simpl. now rewrite E. }
  split; [|split].
  - intros He. unfold handleReset. now rewrite He.
  - exact N.
  - intros Hv n.
    destruct N as [Hh Hi]; [intros E; rewrite E in Hv; simpl in Hv; lia|].
    destruct (redo_iter n (handleReset s)) as [Hh' Hi'].
    + rewrite Hh, Hi. subst n. lia.
    + unfold currentImage. rewrite Hh', Hi', Hh, Hi.
      split; [|f_equal]; subst n; lia.
Qed.

Lemma reset_keeps_history_witness :
  currentImage (Nat.iter 1 handleRedo (handleReset Samples.edited))
  = Some (Samples.photo "b").
Proof.
  destruct (reset_keeps_history Samples.edited) as (_ & _ & R).
  destruct R as [_ R]; [simpl; lia|].
  exact R.
Defined.

(** The cursor stays valid whatever the application does. *)
Lemma valid_cursor_commit cap f r s : valid_cursor (addImageToHistory cap f r s).
Proof.
  right. rewrite commit_index, commit_history. unfold JS.push.
  rewrite length_app. simpl. lia.
Qed.

End HistoryFacts.

(** ** The adjustment translator *)

Module TranslatorFacts.

Import AdjustmentPanel.

(** The word [valueToText] finds in [intensityMap] is the tier of the
    magnitude. *)
Lemma intensity_is_tier (m : Z) :
  0 < m <= 100 ->
  show (lookup (match find (fun k => m <=? k) (map fst intensityMap) with
                | Some k => k
                | None => 60
                end) intensityMap)
  = Reference.tier m.
Proof.
  intros Hm. unfold Reference.tier. simpl.
  repeat (match goal with
          | |- context [?a <=? ?b] => destruct (Z.leb_spec a b)
          end; simpl; try reflexivity; try lia).
Qed.

(** Beyond the range of the sliders no key matches and the word is the
    unqualified one. *)
Lemma intensity_out_of_range (m : Z) :
  100 < m ->
  show (lookup (match find (fun k => m <=? k) (map fst intensityMap) with
                | Some k => k
                | None => 60
                end) intensityMap)
  = "".
Proof.
  intros Hm. simpl.
  repeat (match goal with
          | |- context [?a <=? ?b] => destruct (Z.leb_spec a b)
          end; simpl; try reflexivity; try lia).
Qed.

Lemma valueToText_main (a : Adjustments) (k : AdjustmentKey) :
  In k Reference.plain -> get a k <> 0 -> -100 <= get a k <= 100 ->
  valueToText k (get a k) = Some (Reference.phrase a k).
Proof.
  intros Hk Hz Hr. unfold valueToText.
  destruct (Z.eqb_spec (get a k) 0) as [|_]; [contradiction|].
  rewrite intensity_is_tier by lia.
  simpl in Hk.
  repeat (destruct Hk as [<-|Hk]; [reflexivity|]). contradiction.
Qed.

Lemma valueToText_vignette (a : Adjustments) :
  vignetteIntensity a <> 0 -> -100 <= vignetteIntensity a <= 100 ->
  (match valueToText KvignetteIntensity (vignetteIntensity a) with
   | Some t => t
   | None => "null"
   end ++ " " ++ featherDesc (vignetteFeather a))%string
  = Reference.phrase a KvignetteIntensity.
Proof.
  intros Hz Hr. unfold valueToText.
  destruct (Z.eqb_spec (vignetteIntensity a) 0) as [|_]; [contradiction|].
  rewrite intensity_is_tier by lia.
  unfold Reference.phrase, get, featherDesc, Reference.feather.
  rewrite !append_assoc. reflexivity.
Qed.

(** A phrase is never the empty string. *)
Lemma phrase_truthy (a : Adjustments) (k : AdjustmentKey) :
  In k Reference.plain -> JS.truthy (Reference.phrase a k) = true.
Proof.
  intros Hk. simpl in Hk.
  repeat (destruct Hk as [<-|Hk];
          [unfold Reference.phrase; destruct (0 <? _); reflexivity|]).
  contradiction.
Qed.

(** What one round of the [forEach] adds. *)
Lemma forEach_main (a : Adjustments) (parts : list string) (k : AdjustmentKey) :
  In k Reference.plain -> -100 <= get a k <= 100 ->
  forEach_body a parts k
  = (parts ++ if get a k =? 0 then [] else [Reference.phrase a k])%list.
Proof.
  intros Hk Hr. unfold forEach_body.
  assert (P : String.prefix "vignette" (key_name k) = false).
  { simpl in Hk. repeat (destruct Hk as [<-|Hk]; [reflexivity|]). contradiction. }
  rewrite P.
  destruct (Z.eqb_spec (get a k) 0) as [E|N].
  - rewrite E. unfold valueToText. simpl. now rewrite app_nil_r.
  - rewrite valueToText_main, phrase_truthy; trivial.
Qed.

(** The last element and what is before it, against the enumeration. *)
Lemma pop_enumerate (l : list string) : forall x y,
  exists z init last,
    JS.pop (x :: y :: l) = Some (z :: init, last) /\
    (JS.join ", " (z :: init) ++ ", and " ++ last)%string
    = Reference.enumerate (x :: y :: l).
Proof.
  induction l as [|w l IH]; intros x y.
  - exists x, [], y. split; reflexivity.
  - destruct (IH y w) as (z & init & last & Hp & He).
    exists x, (z :: init), last. split.
    + change (JS.pop (x :: y :: w :: l))
        with (match JS.pop (y :: w :: l) with
              | None => Some ([], x)
              | Some (i, t) => Some (x :: i, t)
              end).
      now rewrite Hp.
    + change (JS.join ", " (x :: z :: init))
        with (x ++ ", " ++ JS.join ", " (z :: init))%string.
      rewrite !append_assoc, He. reflexivity.
Qed.

(** The sentence the code builds from its parts is the reference one. *)
Lemma compose_sentence (parts : list string) :
  match parts with
  | [] => ""
  | [p] => "Apply the following adjustment: " ++ p ++ "."
  | _ =>
      match JS.pop parts with
      | Some (init, lastPart) =>
          "Apply the following adjustments: " ++ JS.join ", " init
            ++ ", and " ++ lastPart ++ "."
      | None => ""
      end
  end%string
  = Reference.sentence parts.
Proof.
  destruct parts as [|x [|y l]]; try reflexivity.
  destruct (pop_enumerate l x y) as (z & init & last & Hp & He).
  rewrite Hp. unfold Reference.sentence. rewrite <- He.
  now rewrite !append_assoc.
Qed.

Lemma map_filter_pieces {A B : Type} (f : A -> B) (p : A -> bool) (l : list A) :
  map f (filter p l) = flat_map (fun k => if p k then [f k] else []) l.
Proof.
  induction l as [|k l IH]; simpl; [reflexivity|].
  destruct (p k); simpl; now rewrite IH.
Qed.

(** C6: for every Adjustments record whose sliders are within their range,
    the translator gives the reference instruction: one phrase for each
    slider that is not zero, with the intensity word of the tier of its
    magnitude and the direction word of its sign, the feather descriptor
    only with a vignette, nothing for a slider at zero; the empty string for
    no phrase, the singular sentence for one, the parts joined by commas
    with a last "and" and a final period for two or more. *)
Theorem generatedPrompt_is_instruction (a : Adjustments) :
  Reference.in_range a -> generatedPrompt a = Reference.instruction a.
Proof.
  intros Hr. unfold generatedPrompt. cbv zeta.
  rewrite compose_sentence. unfold Reference.instruction. f_equal.
  unfold Reference.phrases. rewrite map_filter_pieces.
  unfold keys, Reference.speaking. cbn [fold_left flat_map].
  assert (V : forall parts k, In k [KvignetteIntensity; KvignetteFeather] ->
                              forEach_body a parts k = parts).
  { intros parts k Hk. simpl in Hk.
    repeat (destruct Hk as [<-|Hk]; [reflexivity|]). contradiction. }
  rewrite (V _ KvignetteFeather), (V _ KvignetteIntensity) by (simpl; tauto).
  rewrite !forEach_main;
    try (apply Hr; simpl; tauto); try (simpl; tauto).
  assert (P : forall (b : bool) (x : string),
             (if negb b then [x] else []) = (if b then [] else [x]))
    by now intros [].
  rewrite !P.
  pose proof (Hr KvignetteIntensity ltac:(simpl; tauto)) as Hv. simpl in Hv.
  change (get a KvignetteIntensity) with (vignetteIntensity a).
  destruct (Z.eqb_spec (vignetteIntensity a) 0) as [E|N]; cbn [negb].
  - cbn [app]. rewrite !app_nil_r, <- !app_assoc. reflexivity.
  - unfold JS.push. rewrite valueToText_vignette by trivial.
    cbn [app]. rewrite <- !app_assoc. reflexivity.
Qed.

Lemma generatedPrompt_is_instruction_witness :
  Reference.in_range Samples.look /\
  generatedPrompt Samples.look = Reference.instruction Samples.look.
Proof.
  assert (R : Reference.in_range Samples.look).
  { intros k Hk. simpl in Hk.
    repeat (destruct Hk as [<-|Hk]; [simpl; lia|]). contradiction. }
  split; [exact R | apply (generatedPrompt_is_instruction Samples.look R)].
Defined.

Example look_instruction :
  generatedPrompt Samples.look
  = ("Apply the following adjustments: increase the brightness subtly, "
     ++ "decrease the contrast , "
     ++ "make the image's color temperature significantly warmer, "
     ++ "and add a  dark vignette with a hard, distinct edge.")%string.
Proof. reflexivity. Qed.

Example neutral_instruction : generatedPrompt initialAdjustments = "".
Proof. reflexivity. Qed.

(** A feather without a vignette says nothing. *)
Example feather_alone_is_silent (f : Z) :
  generatedPrompt
    {| brightness := 0; contrast := 0; saturation := 0; temperature := 0;
       sharpness := 0; vignetteIntensity := 0; vignetteFeather := f;
       colorBalance := 0 |} = "".
Proof. reflexivity. Qed.

End TranslatorFacts.

(** ** Cropping to a file *)

Module CropFacts.

Import Raster.

(** C2 (as amended): the canvas [cropImageToFile] encodes is the crop
    rectangle scaled by the device pixel ratio alone, each side taken as an
    unsigned integer: its size is the same whatever the natural and the
    displayed size of the image are. The scale factors only say which part
    of the image is drawn into it. *)
Theorem crop_canvas_dimensions (b : Browser.t) (image : Img.t)
    (crop : PixelCrop.t) (canvas : Canvas.t) :
  cropCanvas b image crop = JS.Ok canvas ->
  let pixelRatio := JS.or_one (Browser.devicePixelRatio b) in
  let scaleX := (Img.naturalWidth image / Img.width image)%float in
  let scaleY := (Img.naturalHeight image / Img.height image)%float in
  Canvas.width canvas = Canvas.dim 300 (PixelCrop.width crop * pixelRatio)%float /\
  Canvas.height canvas = Canvas.dim 150 (PixelCrop.height crop * pixelRatio)%float /\
  Canvas.ops canvas
  = [Canvas.setTransform pixelRatio 0 0 pixelRatio 0 0;
     Canvas.drawImageFrom
       (PixelCrop.x crop * scaleX)%float (PixelCrop.y crop * scaleY)%float
       (PixelCrop.width crop * scaleX)%float (PixelCrop.height crop * scaleY)%float
       0 0 (PixelCrop.width crop) (PixelCrop.height crop)] /\
  forall image' canvas',
    cropCanvas b image' crop = JS.Ok canvas' ->
    Canvas.width canvas' = Canvas.width canvas /\
    Canvas.height canvas' = Canvas.height canvas.
Proof.
  unfold cropCanvas. intros H.
  destruct (Browser.getContext2d b); [|discriminate].
  simpl in H. injection H as <-. cbv zeta.
  split; [reflexivity | split; [reflexivity | split; [reflexivity|]]].
  intros image' canvas' H'. simpl in H'.
  injection H' as <-. split; reflexivity.
Qed.

Lemma crop_canvas_dimensions_witness :
  exists canvas,
    cropCanvas Samples.browser
      {| Img.naturalWidth := 2000; Img.naturalHeight := 1000;
         Img.width := 1000; Img.height := 500 |}
      Samples.crop70x90 = JS.Ok canvas /\
    Canvas.width canvas = 70 /\ Canvas.height canvas = 90.
Proof.
  eexists. split; [reflexivity|].
  destruct (crop_canvas_dimensions Samples.browser
              {| Img.naturalWidth := 2000; Img.naturalHeight := 1000;
                 Img.width := 1000; Img.height := 500 |}
              Samples.crop70x90 _ eq_refl) as (W & H & _).
  split; [exact W | exact H].
Defined.

(** C2 (as stated) fails: a 70 by 90 crop of an image shown at half its
    natural size, at device pixel ratio 1, gives a canvas of 70 by 90, not
    of 140 by 180. *)
Lemma crop_canvas_not_scaled_by_S :
  ~ (forall (b : Browser.t) (image : Img.t) (crop : PixelCrop.t)
            (canvas : Canvas.t),
       cropCanvas b image crop = JS.Ok canvas ->
       let S := (Img.naturalWidth image / Img.width image)%float in
       let dpr := Browser.devicePixelRatio b in
       Canvas.width canvas
       = JS.to_unsigned_long (PixelCrop.width crop * S * dpr)%float /\
       Canvas.height canvas
       = JS.to_unsigned_long (PixelCrop.height crop * S * dpr)%float).
Proof.
  intros claim.
  destruct (claim Samples.browser
              {| Img.naturalWidth := 2000; Img.naturalHeight := 1000;
                 Img.width := 1000; Img.height := 500 |}
              Samples.crop70x90 _ eq_refl) as [W _].
  vm_compute in W. discriminate.
Qed.

End CropFacts.

(** ** Data URLs *)

Module RasterFacts.

Import Raster.

Lemma occurs_app (c : ascii) (a b : string) :
  Reference.occurs c (a ++ b) = (Reference.occurs c a || Reference.occurs c b)%bool.
Proof.
  induction a as [|d a IH]; simpl; [reflexivity|].
  now rewrite IH, orb_assoc.
Qed.

Lemma split_no_comma (s : string) :
  Reference.occurs "," s = false -> JS.split_comma s = [s].
Proof.
  induction s as [|c r IH]; simpl; [reflexivity|].
  intros H. apply orb_false_elim in H as [Hc Hr].
  rewrite Hc, (IH Hr). reflexivity.
Qed.

Lemma split_at_comma (a b : string) :
  Reference.occurs "," a = false ->
  JS.split_comma (a ++ "," ++ b) = a :: JS.split_comma b.
Proof.
  induction a as [|c r IH]; simpl; [reflexivity|].
  intros H. apply orb_false_elim in H as [Hc Hr].
  rewrite Hc. simpl in IH. rewrite (IH Hr). reflexivity.
Qed.

(** A character of U+0020 to U+007E starts no line terminator. *)
Lemma printable_no_terminator (c : ascii) (r : string) :
  File.printable c = true -> is_line_terminator (String c r) = false.
Proof.
  unfold File.printable, is_line_terminator, JS.line_terminator_width.
  intros H. apply andb_true_iff in H as [Hl Hu].
  apply Z.leb_le in Hl, Hu.
  destruct (Z.eqb_spec (JS.byte c) 10); [lia|].
  destruct (Z.eqb_spec (JS.byte c) 13); [lia|].
  destruct (Z.eqb_spec (JS.byte c) 226); [lia|].
  cbn [orb andb]. now destruct r as [|d [|e r]].
Qed.

Lemma upto_semicolon_app (mime rest : string) :
  File.all File.printable mime = true ->
  Reference.occurs ";" mime = false ->
  upto_semicolon (mime ++ ";" ++ rest) = Some mime.
Proof.
  induction mime as [|c r IH]; [reflexivity|].
  intros Hp Hs. cbn [File.all] in Hp. apply andb_true_iff in Hp as [Hc Hr].
  cbn [Reference.occurs] in Hs. apply orb_false_elim in Hs as [C1 R1].
  change (upto_semicolon (String c r ++ ";" ++ rest))
    with (if Ascii.eqb c ";" then Some ""
          else if is_line_terminator (String c (r ++ ";" ++ rest)) then None
          else option_map (String c) (upto_semicolon (r ++ ";" ++ rest))).
  rewrite C1, (printable_no_terminator c _ Hc), (IH Hr R1). reflexivity.
Qed.

(** The header of a data URL is read up to [;] and its payload handed to
    [atob]. *)
Lemma data_url_parses (b : Browser.t) (mime payload filename : string) :
  Reference.plain_mime mime ->
  Reference.occurs "," payload = false ->
  dataURLtoFile b ("data:" ++ mime ++ ";base64," ++ payload) filename
  = match Browser.atob b payload with
    | JS.Ok bstr =>
        JS.Ok {| File.name := filename; File.type := File.lowercase mime;
                 File.bits := bstr |}
    | JS.Throw t => JS.Throw t
    end.
Proof.
  intros (Hne & Ha & Hs & Hc) Hp. unfold dataURLtoFile.
  assert (E : ("data:" ++ mime ++ ";base64," ++ payload
               = ("data:" ++ mime ++ ";base64") ++ "," ++ payload)%string).
  { simpl. do 5 f_equal. rewrite append_assoc. reflexivity. }
  rewrite E, split_at_comma, (split_no_comma payload Hp).
  2:{ simpl. rewrite occurs_app, Hc. reflexivity. }
  cbn [List.length nth Z.of_nat Pos.of_succ_nat Pos.succ Z.ltb Z.compare
       Pos.compare Pos.compare_cont].
  change (match_mime ("data:" ++ mime ++ ";base64"))
    with (match upto_semicolon (mime ++ ";" ++ "base64") with
          | Some g => Some g
          | None => match_mime (mime ++ ";" ++ "base64")
          end).
  rewrite (upto_semicolon_app mime "base64" Ha Hs).
  unfold File.make, File.kept_type. rewrite Ha.
  destruct mime as [|c r]; [congruence|].
  cbn [JS.truthy negb]. unfold JS.bind.
  now destruct (Browser.atob b payload).
Qed.

Lemma plain_jpeg : Reference.plain_mime "image/jpeg".
Proof. repeat split. discriminate. Qed.

Lemma plain_png : Reference.plain_mime "image/png".
Proof. repeat split. discriminate. Qed.

(** In a browser that follows the HTML Standard the data URL of a bitmap
    with pixels is read back as a file, of the type asked for or of
    image/png. *)
Lemma standard_encodes (b : Browser.t) (c : Canvas.t) (type filename : string) :
  Reference.standard b ->
  Canvas.width c <> 0 -> Canvas.height c <> 0 ->
  Reference.plain_mime (File.lowercase type) ->
  exists mime bits,
    (mime = File.lowercase type \/ mime = "image/png") /\
    dataURLtoFile b (Browser.toDataURL b c type) filename
    = JS.Ok {| File.name := filename; File.type := File.lowercase mime;
               File.bits := bits |}.
Proof.
  intros Hb Hw Hh Ht.
  destruct (Hb c type Hw Hh) as (mime & payload & bits & Hm & He & Hp & Ha).
  exists mime, bits. split; [exact Hm|].
  unfold Browser.toDataURL.
  destruct (Z.eqb_spec (Canvas.width c) 0); [contradiction|].
  destruct (Z.eqb_spec (Canvas.height c) 0); [contradiction|].
  cbn [orb]. rewrite He, data_url_parses, Ha; trivial.
  destruct Hm as [->| ->]; [exact Ht | exact plain_png].
Qed.

(** The sample browser follows the HTML Standard. *)
Lemma standard_sample : Reference.standard Samples.browser.
Proof.
  intros c type _ _.
  exists (File.lowercase type), "AAAA"%string, "AAAA"%string.
  repeat split. now left.
Qed.

End RasterFacts.

(** ** The passport sheet *)

Module SheetFacts.

Import Raster.

Lemma for_loop_add (a k : nat) (g : Geometry) : forall st,
  for_loop (a + k) g st = for_loop k g (for_loop a g st).
Proof. induction a as [|a IH]; intros st; simpl; [reflexivity | apply IH]. Qed.

(** After the [break] nothing happens any more. *)
Lemma for_loop_stopped (k : nat) (g : Geometry) : forall st,
  stopped st = true -> for_loop k g st = st.
Proof.
  induction k as [|k IH]; intros st Hs; simpl; [reflexivity|].
  unfold loop_body. rewrite Hs. now apply IH.
Qed.

(** The loop only adds to what is drawn. *)
Lemma loop_body_extends (g : Geometry) (st : Loop) :
  exists more,
    Canvas.ops (canvas (loop_body g st)) = (Canvas.ops (canvas st) ++ more)%list.
Proof.
  unfold loop_body. destruct (stopped st).
  - exists []. now rewrite app_nil_r.
  - destruct (_ <? _)%float; cbv beta iota zeta;
      destruct (_ <? _)%float; simpl;
      try (exists []; now rewrite app_nil_r);
      unfold JS.push; rewrite <- app_assoc; eexists; reflexivity.
Qed.

Lemma for_loop_extends (k : nat) (g : Geometry) : forall st,
  exists more,
    Canvas.ops (canvas (for_loop k g st)) = (Canvas.ops (canvas st) ++ more)%list.
Proof.
  induction k as [|k IH]; intros st; simpl.
  - exists []. now rewrite app_nil_r.
  - destruct (IH (loop_body g st)) as [m Hm].
    destruct (loop_body_extends g st) as [m' Hm'].
    rewrite Hm, Hm', <- app_assoc. eexists; reflexivity.
Qed.

Lemma photos_app (a b : list Canvas.Op) :
  photos (a ++ b) = (photos a ++ photos b)%list.
Proof.
  induction a as [|o a IH]; simpl; [reflexivity|].
  destruct o; simpl; now rewrite ?IH.
Qed.

(** The photos of the reference drawing are where it was asked to put them. *)
Lemma photos_sheet_ops (g : Geometry) (ps : list (float * float)) :
  photos (Reference.sheet_ops g ps) = ps.
Proof.
  unfold Reference.sheet_ops. simpl.
  induction ps as [|[x y] ps IH]; simpl; [reflexivity | now rewrite IH].
Qed.

(** One round more than the page holds ends in the [break]. *)
Lemma full_page_stops (sheetSize : SheetSize) (layout : Layout) :
  stopped (for_loop (Reference.capacity sheetSize layout + 1)
             (geometry sheetSize layout) (loop_init (geometry sheetSize layout)))
  = true.
Proof. destruct sheetSize, layout; vm_compute; reflexivity. Qed.

Lemma beyond_capacity (sheetSize : SheetSize) (layout : Layout) (k : nat) :
  (Reference.capacity sheetSize layout < k)%nat ->
  for_loop k (geometry sheetSize layout) (loop_init (geometry sheetSize layout))
  = for_loop (Reference.capacity sheetSize layout + 1)
      (geometry sheetSize layout) (loop_init (geometry sheetSize layout)).
Proof.
  intros Hk.
  replace k with ((Reference.capacity sheetSize layout + 1)
                  + (k - (Reference.capacity sheetSize layout + 1)))%nat by lia.
  rewrite for_loop_add. apply for_loop_stopped, full_page_stops.
Qed.

(** Up to one round more than the page holds, by running the loop. *)
Lemma within_capacity (sheetSize : SheetSize) (layout : Layout) (k : nat) :
  (k <= Reference.capacity sheetSize layout + 1)%nat ->
  Canvas.ops (canvas (for_loop k (geometry sheetSize layout)
                        (loop_init (geometry sheetSize layout))))
  = Reference.sheet_ops (geometry sheetSize layout)
      (map (Reference.position sheetSize layout)
         (seq 0 (Nat.min k (Reference.capacity sheetSize layout)))).
Proof.
  intros Hk.
  destruct sheetSize, layout;
    do 32 (destruct k as [|k]; [vm_compute; reflexivity|]);
    vm_compute in Hk; lia.
Qed.

Lemma sheet_drawing (sheetSize : SheetSize) (layout : Layout) (k : nat) :
  Canvas.ops (canvas (for_loop k (geometry sheetSize layout)
                        (loop_init (geometry sheetSize layout))))
  = Reference.sheet_ops (geometry sheetSize layout)
      (map (Reference.position sheetSize layout)
         (seq 0 (Nat.min k (Reference.capacity sheetSize layout)))).
Proof.
  destruct (Nat.le_gt_cases k (Reference.capacity sheetSize layout + 1)) as [H|H].
  - now apply within_capacity.
  - rewrite beyond_capacity by lia.
    rewrite within_capacity by lia. do 3 f_equal. lia.
Qed.

(** A goal about every [k] below a bound that is a numeral: run it for each. *)
Ltac below k H :=
  do 8 (destruct k as [|k];
        [first [vm_compute; reflexivity | exfalso; vm_compute in H; lia]|]);
  exfalso; vm_compute in H; lia.

(** The columns of a page fit and the next one would not; so for its rows. *)
Lemma columns_fit (sheetSize : SheetSize) (layout : Layout) :
  let g := geometry sheetSize layout in
  (forall c, (c < Reference.columns sheetSize layout)%nat ->
     Reference.exceeds
       (Reference.offset (margin_px g) (photoW_px g + margin_px g) c)
       (photoW_px g) (margin_px g) (sheetW_px g) = false) /\
  Reference.exceeds
    (Reference.offset (margin_px g) (photoW_px g + margin_px g)
       (Reference.columns sheetSize layout))
    (photoW_px g) (margin_px g) (sheetW_px g) = true.
Proof.
  destruct sheetSize, layout; (split; [|vm_compute; reflexivity]);
    intros c Hc; below c Hc.
Qed.

Lemma rows_fit (sheetSize : SheetSize) (layout : Layout) :
  let g := geometry sheetSize layout in
  (forall r, (r < Reference.rows sheetSize layout)%nat ->
     Reference.exceeds
       (Reference.offset (margin_px g) (photoH_px g + margin_px g) r)
       (photoH_px g) (margin_px g) (sheetH_px g) = false) /\
  Reference.exceeds
    (Reference.offset (margin_px g) (photoH_px g + margin_px g)
       (Reference.rows sheetSize layout))
    (photoH_px g) (margin_px g) (sheetH_px g) = true.
Proof.
  destruct sheetSize, layout; (split; [|vm_compute; reflexivity]);
    intros r Hr; below r Hr.
Qed.

(** C7: for every page preset, orientation and positive copy count the
    sheet is the white page with the first [min count capacity] photos of
    the page, each outlined and then filled, where photo [k] is in column
    [k mod columns] and row [k / columns], the first at the margin offset,
    a column (row) being an advance by item width (height) plus margin; a
    row has as many columns as fit before the page width less the margin
    and the page as many rows as fit before its height less the margin. So
    a count above the capacity places capacity photos, fewer than asked, and
    4x6 portrait with one copy draws one outlined, filled rectangle at the
    margin offset. *)
Theorem sheet_fills_rows_then_stops (sheetSize : SheetSize) (layout : Layout)
    (photoCount : Z) :
  0 < photoCount ->
  let g := geometry sheetSize layout in
  let sheet := composeSheet sheetSize layout photoCount in
  let capacity := Reference.capacity sheetSize layout in
  Canvas.ops sheet
  = Reference.sheet_ops g
      (map (Reference.position sheetSize layout)
         (seq 0 (Nat.min (Z.to_nat photoCount) capacity))) /\
  Reference.position sheetSize layout 0 = (margin_px g, margin_px g) /\
  ((forall c, (c < Reference.columns sheetSize layout)%nat ->
      Reference.exceeds
        (Reference.offset (margin_px g) (photoW_px g + margin_px g) c)
        (photoW_px g) (margin_px g) (sheetW_px g) = false) /\
   Reference.exceeds
     (Reference.offset (margin_px g) (photoW_px g + margin_px g)
        (Reference.columns sheetSize layout))
     (photoW_px g) (margin_px g) (sheetW_px g) = true) /\
  ((forall r, (r < Reference.rows sheetSize layout)%nat ->
      Reference.exceeds
        (Reference.offset (margin_px g) (photoH_px g + margin_px g) r)
        (photoH_px g) (margin_px g) (sheetH_px g) = false) /\
   Reference.exceeds
     (Reference.offset (margin_px g) (photoH_px g + margin_px g)
        (Reference.rows sheetSize layout))
     (photoH_px g) (margin_px g) (sheetH_px g) = true) /\
  (Z.of_nat capacity < photoCount ->
     List.length (photos (Canvas.ops sheet)) = capacity /\
     Z.of_nat (List.length (photos (Canvas.ops sheet))) < photoCount) /\
  Canvas.ops (composeSheet Size4x6 portrait 1)
  = [Canvas.fillRect "white" 0 0 1200 1800;
     Canvas.strokeRect "#cccccc" 1 30 30
       (photoW_px (geometry Size4x6 portrait))
       (photoH_px (geometry Size4x6 portrait));
     Canvas.drawImage 30 30
       (photoW_px (geometry Size4x6 portrait))
       (photoH_px (geometry Size4x6 portrait))].
Proof.
  intros Hn g sheet capacity.
  assert (D : Canvas.ops sheet
              = Reference.sheet_ops g
                  (map (Reference.position sheetSize layout)
                     (seq 0 (Nat.min (Z.to_nat photoCount) capacity))))
    by apply sheet_drawing.
  split; [exact D|].
  split; [destruct sheetSize, layout; reflexivity|].
  split; [apply columns_fit|].
  split; [apply rows_fit|].
  split; [|reflexivity].
  intros Hc. rewrite D, photos_sheet_ops, length_map, length_seq.
  rewrite Nat.min_r by lia. split; [reflexivity | lia].
Qed.

Lemma sheet_fills_rows_then_stops_witness :
  0 < 10 /\
  List.length (photos (Canvas.ops (composeSheet Size4x6 portrait 10))) = 6%nat.
Proof.
  split; [lia|].
  destruct (sheet_fills_rows_then_stops Size4x6 portrait 10)
    as (_ & _ & _ & _ & P & _); [lia|].
  destruct P as [P _]; [vm_compute; reflexivity|].
  exact P.
Defined.

(** Drawing a photo does not resize the canvas. *)
Lemma loop_body_size (g : Geometry) (st : Loop) :
  Canvas.width (canvas (loop_body g st)) = Canvas.width (canvas st) /\
  Canvas.height (canvas (loop_body g st)) = Canvas.height (canvas st).
Proof.
  unfold loop_body. destruct (stopped st); [now split|].
  destruct (_ <? _)%float; cbv beta iota zeta;
    destruct (_ <? _)%float; now split.
Qed.

Lemma for_loop_size (k : nat) (g : Geometry) : forall st,
  Canvas.width (canvas (for_loop k g st)) = Canvas.width (canvas st) /\
  Canvas.height (canvas (for_loop k g st)) = Canvas.height (canvas st).
Proof.
  induction k as [|k IH]; intros st; simpl; [now split|].
  destruct (IH (loop_body g st)) as [-> ->]. apply loop_body_size.
Qed.

(** The sheet is a bitmap with pixels. *)
Lemma sheet_has_pixels (sheetSize : SheetSize) (layout : Layout)
    (photoCount : Z) :
  Canvas.width (composeSheet sheetSize layout photoCount) <> 0 /\
  Canvas.height (composeSheet sheetSize layout photoCount) <> 0.
Proof.
  unfold composeSheet.
  destruct (for_loop_size (Z.to_nat photoCount) (geometry sheetSize layout)
              (loop_init (geometry sheetSize layout))) as [-> ->].
  destruct sheetSize, layout; vm_compute; split; discriminate.
Qed.

(** The file of a sheet is read from the data URL of the sheet as drawn. *)
Lemma sheetFile_encodes (b : Browser.t) (sheetSize : SheetSize)
    (layout : Layout) (photoCount : Z) :
  App.sheetFile b sheetSize layout photoCount
  = dataURLtoFile b
      (Browser.encode b (composeSheet sheetSize layout photoCount) "image/jpeg")
      ("passport-sheet-" ++ App.sheetSize_name sheetSize ++ "-"
         ++ App.layout_name layout ++ "-" ++ Browser.now b ++ ".jpg").
Proof.
  unfold App.sheetFile, Browser.toDataURL.
  destruct (sheet_has_pixels sheetSize layout photoCount) as [Hw Hh].
  destruct (Z.eqb_spec (Canvas.width (composeSheet sheetSize layout photoCount)) 0);
    [contradiction|].
  destruct (Z.eqb_spec (Canvas.height (composeSheet sheetSize layout photoCount)) 0);
    [contradiction|].
  reflexivity.
Qed.

(** In a browser that follows the HTML Standard the file of a sheet is
    always built. *)
Lemma sheet_encodes (b : Browser.t) (sheetSize : SheetSize) (layout : Layout)
    (photoCount : Z) :
  Reference.standard b ->
  exists file, App.sheetFile b sheetSize layout photoCount = JS.Ok file.
Proof.
  intros Hb. unfold App.sheetFile.
  destruct (sheet_has_pixels sheetSize layout photoCount) as [Hw Hh].
  destruct (RasterFacts.standard_encodes b
              (composeSheet sheetSize layout photoCount) "image/jpeg"
              ("passport-sheet-" ++ App.sheetSize_name sheetSize ++ "-"
                 ++ App.layout_name layout ++ "-" ++ Browser.now b ++ ".jpg")
              Hb Hw Hh RasterFacts.plain_jpeg) as (mime & bits & _ & E).
  eexists. exact E.
Qed.

(** [img.onload] commits the file of the sheet when it is built, and
    nothing at all when it is not. *)
Lemma onload_commits (b : Browser.t) (cap s : App.State)
    (sheetSize : SheetSize) (layout : Layout) (photoCount : Z) :
  match App.sheetFile b sheetSize layout photoCount with
  | JS.Ok file =>
      App.history (App.sheet_onload b cap sheetSize layout photoCount s)
      = JS.push (JS.slice0 (App.history cap) (App.historyIndex cap + 1)) file /\
      App.currentImage (App.sheet_onload b cap sheetSize layout photoCount s)
      = Some file /\
      App.isLoading (App.sheet_onload b cap sheetSize layout photoCount s)
      = false
  | JS.Throw _ => App.sheet_onload b cap sheetSize layout photoCount s = s
  end.
Proof.
  unfold App.sheet_onload.
  destruct (App.sheetFile b sheetSize layout photoCount) as [file|t];
    [|reflexivity].
  destruct (HistoryFacts.commit_current cap file false s
              (fun u => App.setPassportStep PassportStep.idle
                          (App.setIsLoading false u))) as [Hh Hc];
    [reflexivity | reflexivity |].
  split; [exact Hh|]. split; [exact Hc | reflexivity].
Qed.

(** C10: with every page preset in either orientation the first position,
    (margin, margin), passes the check against the page width and the check
    against the page height; so a request for at least one copy always
    draws a first photo there, and the sheet is never without a photo. The
    file [img.onload] commits is read from the data URL of that very
    canvas, with the photo on it: when it is built it becomes the current
    image, at the end of the history the handler saw; when it is not,
    nothing is committed; and a browser that follows the HTML Standard
    always builds it. *)
Theorem first_photo_always_fits (b : Browser.t) (cap s : App.State)
    (sheetSize : SheetSize) (layout : Layout) (photoCount : Z) :
  1 <= photoCount ->
  let g := geometry sheetSize layout in
  let sheet := composeSheet sheetSize layout photoCount in
  let s' := App.sheet_onload b cap sheetSize layout photoCount s in
  (sheetW_px g <? margin_px g + photoW_px g + margin_px g)%float = false /\
  (sheetH_px g <? margin_px g + photoH_px g + margin_px g)%float = false /\
  (exists rest, photos (Canvas.ops sheet) = (margin_px g, margin_px g) :: rest) /\
  App.sheetFile b sheetSize layout photoCount
  = dataURLtoFile b (Browser.encode b sheet "image/jpeg")
      ("passport-sheet-" ++ App.sheetSize_name sheetSize ++ "-"
         ++ App.layout_name layout ++ "-" ++ Browser.now b ++ ".jpg") /\
  (forall file,
     App.sheetFile b sheetSize layout photoCount = JS.Ok file ->
     App.history s'
     = JS.push (JS.slice0 (App.history cap) (App.historyIndex cap + 1)) file /\
     App.currentImage s' = Some file) /\
  (forall t,
     App.sheetFile b sheetSize layout photoCount = JS.Throw t -> s' = s) /\
  (Reference.standard b ->
   exists file, App.sheetFile b sheetSize layout photoCount = JS.Ok file).
Proof.
  intros Hn g sheet s'.
  assert (W : (sheetW_px g <? margin_px g + photoW_px g + margin_px g)%float = false)
    by (destruct sheetSize, layout; vm_compute; reflexivity).
  assert (H : (sheetH_px g <? margin_px g + photoH_px g + margin_px g)%float = false)
    by (destruct sheetSize, layout; vm_compute; reflexivity).
  split; [exact W|]. split; [exact H|].
  split; [|split; [apply sheetFile_encodes|split; [|split]]].
  - subst sheet. unfold composeSheet. fold g.
    destruct (Z.to_nat photoCount) as [|k] eqn:E; [lia|].
    cbn [for_loop].
    destruct (for_loop_extends k g (loop_body g (loop_init g))) as [more Hm].
    rewrite Hm, photos_app.
    unfold loop_body, loop_init. cbn [stopped lx ly canvas].
    rewrite W. cbv beta iota zeta. rewrite H.
    cbn [canvas]. simpl. eexists. reflexivity.
  - intros file Hf. subst s'.
    pose proof (onload_commits b cap s sheetSize layout photoCount) as C.
    rewrite Hf in C. destruct C as (Hh & Hc & _). now split.
  - intros t Ht. subst s'.
    pose proof (onload_commits b cap s sheetSize layout photoCount) as C.
    now rewrite Ht in C.
  - apply sheet_encodes.
Qed.

Lemma first_photo_always_fits_witness :
  1 <= 4 /\
  (exists rest,
     photos (Canvas.ops (composeSheet SizeA4 landscape 4))
     = (30%float, 30%float) :: rest) /\
  exists file,
    App.sheetFile Samples.browser SizeA4 landscape 4 = JS.Ok file /\
    App.currentImage
      (App.sheet_onload Samples.browser Samples.edited SizeA4 landscape 4
         Samples.edited) = Some file.
Proof.
  split; [lia|].
  destruct (first_photo_always_fits Samples.browser Samples.edited
              Samples.edited SizeA4 landscape 4)
    as (_ & _ & P & _ & C & _ & S); [lia|].
  split; [exact P|].
  destruct (S RasterFacts.standard_sample) as [file Hf].
  exists file. split; [exact Hf|]. exact (proj2 (C file Hf)).
Defined.

End SheetFacts.

(** ** The application *)

Module AppFacts.

Import App.

Lemma tab_eqb_refl (t : Tab.t) : Tab.eqb t t = true.
Proof. now destruct t. Qed.

Lemma tab_eqb_neq (t u : Tab.t) : t <> u -> Tab.eqb t u = false.
Proof. destruct t, u; simpl; congruence. Qed.

Lemma reachable_run (es : list (Browser.t * Event)) : forall w,
  reachable w -> reachable (run es w).
Proof.
  induction es as [|[b e] es IH]; intros w Hw; simpl; [exact Hw|].
  apply IH. now constructor.
Qed.

(** *** The cursor stays valid *)

Lemma valid_cursor_same (s s' : State) :
  history s' = history s -> historyIndex s' = historyIndex s ->
  valid_cursor s -> valid_cursor s'.
Proof. unfold valid_cursor. intros -> ->. trivial. Qed.

Lemma valid_cursor_tryCommit b o fileName onOk failed otherwise s :
  (forall f t, valid_cursor (onOk f t)) ->
  valid_cursor s ->
  valid_cursor (tryCommit b o fileName onOk failed otherwise s).
Proof.
  intros Hok Hs. unfold tryCommit.
  destruct (JS.bind _ _) as [f|t].
  - apply (valid_cursor_same (onOk f s)); trivial.
  - revert Hs. now apply valid_cursor_same.
Qed.

Lemma valid_cursor_after_commit cap f r t (k : State -> State) :
  (forall u, history (k u) = history u) ->
  (forall u, historyIndex (k u) = historyIndex u) ->
  valid_cursor (k (addImageToHistory cap f r t)).
Proof.
  intros Hh Hi.
  apply (valid_cursor_same (addImageToHistory cap f r t)); trivial.
  apply HistoryFacts.valid_cursor_commit.
Qed.

Lemma valid_cursor_settle b p o s :
  valid_cursor s -> valid_cursor (settle b p o s).
Proof.
  intros Hs. unfold settle.
  destruct (call p);
    [ unfold handleGenerate_resume | unfold handleApplyFilter_resume
    | unfold handleApplyAdjustment_resume | unfold handleAutoAdjust_resume
    | unfold handleUpscale_resume | unfold handlePassportBgChange_resume | ];
    try (apply valid_cursor_tryCommit; [|exact Hs]; intros f t).
  - now apply (valid_cursor_after_commit _ _ _ _ (setPrompt "")).
  - apply HistoryFacts.valid_cursor_commit.
  - apply HistoryFacts.valid_cursor_commit.
  - apply HistoryFacts.valid_cursor_commit.
  - apply HistoryFacts.valid_cursor_commit.
  - now apply (valid_cursor_after_commit _ _ _ _
                 (setPassportStep PassportStep.sheet)).
  - destruct o.
    + unfold sheet_onload. destruct (sheetFile b sheetSize layout photoCount); trivial.
      now apply (valid_cursor_after_commit _ _ _ _
                   (fun u => setPassportStep PassportStep.idle
                               (setIsLoading false u))).
    + revert Hs. now apply valid_cursor_same.
Qed.

Lemma valid_cursor_later (f : State -> State * option Pending) (w : World) :
  (forall s, history (fst (f s)) = history s /\
             historyIndex (fst (f s)) = historyIndex s) ->
  valid_cursor (app w) -> valid_cursor (app (later f w)).
Proof.
  intros Hf Hw. unfold later. destruct (Hf (app w)) as [Hh Hi].
  destruct (f (app w)) as [s p]. simpl in *.
  revert Hw. now apply valid_cursor_same.
Qed.

Lemma issue_keeps_history image c s :
  history (fst (issue image c s)) = history s /\
  historyIndex (fst (issue image c s)) = historyIndex s.
Proof. unfold issue. now destruct image. Qed.

Lemma valid_cursor_handle b e w :
  valid_cursor (app w) -> valid_cursor (app (handle b e w)).
Proof.
  intros Hw.
  destruct e; simpl;
    try (revert Hw; now apply valid_cursor_same);
    try (apply valid_cursor_later; trivial; intros s; apply issue_keeps_history).
  - (* FileSelect *) right. simpl. lia.
  - (* ImageClick *)
    unfold handleImageClick. destruct (activeTab (app w)); trivial.
  - (* Generate *)
    apply valid_cursor_later; trivial. intros s. unfold handleGenerate.
    destruct (currentImage s); [|now split].
    destruct (blank (prompt s)); [now split|].
    destruct (editHotspot s); now split.
  - (* ApplyCrop *)
    unfold handleApplyCrop.
    destruct (completedCrop (app w)), (Browser.imgRef b); trivial.
    destruct (Raster.cropImageToFile _ _ _ _); trivial.
    apply HistoryFacts.valid_cursor_commit.
  - (* PassportCrop *)
    unfold handlePassportCrop.
    destruct (completedCrop (app w)), (Browser.imgRef b); trivial.
    destruct (Raster.cropImageToFile _ _ _ _); trivial.
  - (* SheetGenerate *)
    apply valid_cursor_later; trivial. intros s. unfold handleSheetGenerate.
    destruct (currentImageUrl s); [|now split].
    destruct (negb _); now split.
  - (* ClickUndo *)
    unfold handleUndo, canUndo.
    destruct (Z.ltb_spec 0 (historyIndex (app w))); trivial.
    destruct Hw as [[_ Hi]|Hi]; [lia|]. right. simpl. lia.
  - (* ClickRedo *)
    unfold handleRedo, canRedo.
    destruct (Z.ltb_spec (historyIndex (app w))
                (Z.of_nat (List.length (history (app w))) - 1)); trivial.
    destruct Hw as [[Hh Hi]|Hi]; [rewrite Hh in *; simpl in *; lia|].
    right. simpl. lia.
  - (* ClickReset *)
    unfold handleReset.
    destruct (Z.ltb_spec 0 (Z.of_nat (List.length (history (app w))))); trivial.
    right. simpl. lia.
  - (* ClickUploadNew *) left. now split.
  - (* Settle *)
    destruct (nth_error (inflight w) k); trivial.
    now apply valid_cursor_settle.
Qed.

(** In every state the application can reach, the history is empty with the
    cursor at -1 or the cursor is an index of it. *)
Lemma reachable_valid_cursor (w : World) :
  reachable w -> valid_cursor (app w).
Proof.
  induction 1 as [|b e w _ IH].
  - left. now split.
  - unfold step.
    destruct (Tab.eqb _ _); [now apply valid_cursor_handle|].
    apply (valid_cursor_same (app (handle b e w))).
    + simpl. unfold activeTabEffect. now destruct (activeTab _).
    + simpl. unfold activeTabEffect. now destruct (activeTab _).
    + now apply valid_cursor_handle.
Qed.

(** *** Calls that fail, calls that succeed *)

(** The two ways a [try]/[catch]/[finally] continuation ends. *)
Lemma tryCommit_cases b o fileName onOk failed otherwise s :
  (exists file, tryCommit b o fileName onOk failed otherwise s
                = setIsLoading false (onOk file s)) \/
  (exists m, tryCommit b o fileName onOk failed otherwise s
             = setIsLoading false (setError (Some m) s)).
Proof.
  unfold tryCommit. destruct (JS.bind _ _) as [f|t].
  - left. now exists f.
  - right. eexists. reflexivity.
Qed.




(** *** The passport workflow *)

(** A side of zero stays zero under any pixel ratio. *)
Lemma zero_side (pixelRatio : float) (default : Z) :
  Canvas.dim default (0 * pixelRatio)%float = 0.
Proof.
  unfold Canvas.dim, JS.to_unsigned_long, JS.IntegerPart.
  rewrite mul_spec.
  change (Prim2SF 0) with (S754_zero false).
  unfold SF64mul, SFmul. now destruct (Prim2SF pixelRatio).
Qed.

(** The data URL of a bitmap without pixels is not one of a file. *)
Lemma no_pixels_no_file (b : Browser.t) (fileName : string) :
  Raster.dataURLtoFile b "data:," fileName
  = JS.Throw (JS.ErrorObject "Could not parse MIME type from data URL").
Proof. reflexivity. Qed.

(** Cropping a rectangle of zero width throws. *)
Lemma empty_crop_throws (b : Browser.t) (image : Img.t) (c : PixelCrop.t)
    (fileName : string) :
  PixelCrop.width c = 0%float ->
  exists t, Raster.cropImageToFile b image c fileName = JS.Throw t.
Proof.
  intros Hw. unfold Raster.cropImageToFile, Raster.cropCanvas.
  destruct (Browser.getContext2d b); simpl; [|eexists; reflexivity].
  unfold Browser.toDataURL. simpl. rewrite Hw, zero_side. simpl.
  eexists. apply no_pixels_no_file.
Qed.

(** C8: clicking the passport tab from another tab puts the workflow in
    [cropping] with the aspect ratio 7/9 and no pending crop; confirming,
    in [cropping], a completed rectangle of zero width leaves the workflow
    in [cropping] and stores no cropped-passport Image. *)
Theorem passport_activation_and_empty_crop (b : Browser.t) (w : World) :
  (activeTab (app w) <> Tab.passport ->
     let w' := step b (TabClick Tab.passport) w in
     passportStep (app w') = PassportStep.cropping /\
     aspect (app w') = Some (7 / 9)%float /\
     crop (app w') = None /\ completedCrop (app w') = None) /\
  (forall c,
     passportStep (app w) = PassportStep.cropping ->
     completedCrop (app w) = Some c ->
     PixelCrop.width c = 0%float ->
     let w' := step b PassportCrop w in
     passportStep (app w') = PassportStep.cropping /\
     passportCroppedImage (app w') = passportCroppedImage (app w)).
Proof.
  split.
  - intros Ht w'. subst w'. unfold step. simpl.
    rewrite tab_eqb_neq by exact Ht. now simpl.
  - intros c Hs Hc Hw w'. subst w'. unfold step, handle, now. cbn [app].
    assert (K : activeTab (handlePassportCrop b (app w)) = activeTab (app w)
                /\ passportStep (handlePassportCrop b (app w)) = passportStep (app w)
                /\ passportCroppedImage (handlePassportCrop b (app w))
                   = passportCroppedImage (app w)).
    { unfold handlePassportCrop. rewrite Hc.
      destruct (Browser.imgRef b) as [img|]; [|now repeat split].
      destruct (empty_crop_throws b img c
                  ("passport-crop-" ++ Browser.now b ++ ".png")%string Hw)
        as [t ->].
      now repeat split. }
    destruct K as (Ka & Kp & Ki).
    rewrite Ka, tab_eqb_refl. cbn [app]. now rewrite Kp, Ki.
Qed.

Lemma passport_activation_and_empty_crop_witness :
  let w := run (map (pair Samples.browser)
                  [FileSelect (Samples.photo "a"); TabClick Tab.passport;
                   CropComplete Samples.empty_crop]) start in
  passportStep (app w) = PassportStep.cropping /\
  aspect (app w) = Some (7 / 9)%float /\
  passportStep (app (step Samples.browser PassportCrop w)) = PassportStep.cropping /\
  passportCroppedImage (app (step Samples.browser PassportCrop w)) = None.
Proof.
  intros w.
  destruct (passport_activation_and_empty_crop Samples.browser
              (step Samples.browser (FileSelect (Samples.photo "a")) start))
    as [A _].
  destruct (passport_activation_and_empty_crop Samples.browser w) as [_ C].
  destruct A as (A1 & A2 & _); [simpl; discriminate|].
  destruct (C Samples.empty_crop) as [C1 C2]; [reflexivity..|].
  split; [reflexivity | split; [reflexivity | split; [exact C1 | exact C2]]].
Defined.

(** C3: a session the code can run, after which the workflow is back at
    [idle] on the passport tab and the cropped-passport Image is still
    there: the sheet is generated and committed, and nothing clears the
    Image. *)
Theorem cropped_image_survives_sheet :
  let w := run Samples.passport_session start in
  reachable w /\
  inflight w = [] /\
  historyIndex (app w) = 2 /\
  activeTab (app w) = Tab.passport /\
  passportStep (app w) = PassportStep.idle /\
  passportCroppedImage (app w)
  = Some {| File.name := "passport-crop-0.png"; File.type := "image/png";
            File.bits := "AAAA" |}.
Proof.
  intros w. split; [apply reachable_run; constructor|].
  subst w. vm_compute. repeat split.
Qed.

(** Every other way out of the workflow clears the cropped-passport Image:
    the reset, leaving the passport tab, an upload, a new start. *)
Lemma other_exits_clear_cropped_image (b : Browser.t) (w : World) :
  passportCroppedImage (handlePassportReset (app w)) = None /\
  (forall tab, activeTab (app w) = Tab.passport -> tab <> Tab.passport ->
     passportStep (app (step b (TabClick tab) w)) = PassportStep.idle /\
     passportCroppedImage (app (step b (TabClick tab) w)) = None) /\
  (forall file,
     passportStep (app (step b (FileSelect file) w)) = PassportStep.idle /\
     passportCroppedImage (app (step b (FileSelect file) w)) = None) /\
  passportStep (app (step b ClickUploadNew w)) = PassportStep.idle /\
  passportCroppedImage (app (step b ClickUploadNew w)) = None.
Proof.
  split; [reflexivity|]. split; [|split].
  - intros tab Hp Ht. unfold step. simpl. rewrite Hp.
    rewrite tab_eqb_neq by congruence. simpl.
    unfold activeTabEffect. simpl. destruct tab; try congruence; now split.
  - intros file. unfold step. simpl.
    destruct (Tab.eqb _ _); now split.
  - unfold step. simpl. rewrite tab_eqb_refl. now split.
Qed.

End AppFacts.

(** ** More on the edit history *)

Module HistoryMore.

Import App.

Lemma index_some {A : Type} (l : list A) (i : Z) :
  0 <= i < Z.of_nat (List.length l) -> exists x, JS.index l i = Some x.
Proof.
  intros Hi. unfold JS.index. destruct (Z.ltb_spec i 0); [lia|].
  destruct (nth_error l (Z.to_nat i)) as [x|] eqn:E; [now exists x|].
  apply nth_error_None in E. lia.
Qed.

Lemma index_none_empty {A : Type} (l : list A) (i : Z) :
  0 <= i < Z.of_nat (List.length l) \/ (l = [] /\ i = -1) ->
  (JS.index l i = None <-> l = []).
Proof.
  intros [Hi|[-> ->]].
  - destruct (index_some l i Hi) as [x ->]. split; [discriminate|].
    intros ->. simpl in Hi. lia.
  - split; reflexivity.
Qed.

(** Below the cursor a commit keeps what was there. *)
Lemma index_push_firstn {A : Type} (l : list A) (x : A) (n : nat) (i : Z) :
  0 <= i < Z.of_nat n -> (n <= List.length l)%nat ->
  JS.index (JS.push (firstn n l) x) i = JS.index l i.
Proof.
  intros Hi Hn. unfold JS.index, JS.push.
  destruct (Z.ltb_spec i 0); [lia|].
  rewrite nth_error_app1 by (rewrite length_firstn; lia).
  rewrite nth_error_firstn.
  destruct (Nat.ltb_spec (Z.to_nat i) n); [reflexivity | lia].
Qed.

Lemma commit_cursor (cap s : State) (f : File.t) (r : bool) :
  0 <= historyIndex cap < Z.of_nat (List.length (history cap)) ->
  history (addImageToHistory cap f r s)
  = JS.push (firstn (Z.to_nat (historyIndex cap + 1)) (history cap)) f /\
  historyIndex (addImageToHistory cap f r s) = historyIndex cap + 1.
Proof.
  intros Hv.
  assert (H : history (addImageToHistory cap f r s)
              = JS.push (firstn (Z.to_nat (historyIndex cap + 1)) (history cap)) f).
  { rewrite HistoryFacts.commit_history, slice0_firstn by lia. reflexivity. }
  split; [exact H|].
  rewrite HistoryFacts.commit_index, H. unfold JS.push.
  rewrite length_app, length_firstn. simpl. lia.
Qed.

(** Undoing [k] times from a cursor with at least [k] entries before it. *)
Lemma undo_iter (k : nat) : forall s,
  Z.of_nat k <= historyIndex s ->
  history (Nat.iter k handleUndo s) = history s /\
  historyIndex (Nat.iter k handleUndo s) = historyIndex s - Z.of_nat k.
Proof.
  induction k as [|k IH]; intros s Hk.
  - simpl. split; [reflexivity | lia].
  - destruct (IH s) as [Hh Hi]; [lia|].
    rewrite Nat.iter_succ, HistoryFacts.undo_history, HistoryFacts.undo_index.
    unfold canUndo. rewrite Hh, Hi.
    destruct (Z.ltb_spec 0 (historyIndex s - Z.of_nat k));
      [split; [reflexivity | lia] | lia].
Qed.

(** X1: in every state the application can reach, the history is empty
    with the cursor at -1 or the cursor is one of its indices; so the
    current and the original image are absent exactly when the history is
    empty. *)
Theorem reachable_cursor_and_images (w : World) :
  reachable w ->
  valid_cursor (app w) /\
  (currentImage (app w) = None <-> history (app w) = []) /\
  (originalImage (app w) = None <-> history (app w) = []).
Proof.
  intros Hr. pose proof (AppFacts.reachable_valid_cursor w Hr) as Hv.
  split; [exact Hv|]. split.
  - apply index_none_empty. destruct Hv as [[? ?]|?]; [right | left]; tauto.
  - unfold originalImage. destruct (history (app w)) as [|f l] eqn:E.
    + split; reflexivity.
    + split; discriminate.
Qed.

Lemma reachable_cursor_and_images_witness :
  let w := run Samples.passport_session start in
  valid_cursor (app w) /\ history (app w) <> [].
Proof.
  intros w.
  destruct (reachable_cursor_and_images w) as (V & C & _).
  - apply AppFacts.reachable_run. constructor.
  - split; [exact V|]. intros E. apply C in E. vm_compute in E. discriminate.
Defined.

(** X2: a commit can be undone and redone, whatever the application holds
    when the commit arrives: with the cursor of the render the commit was
    issued in on one of the indices of its history, the undo shows the
    image that was current in that render, the redo the committed one. In
    a handler without [await] that render is the state before the commit;
    for a result that arrives late it is the one the call was issued in,
    also when the history has changed since. *)
Theorem commit_undo_redo (cap s : State) (f : File.t) (r : bool) :
  0 <= historyIndex cap < Z.of_nat (List.length (history cap)) ->
  let c := addImageToHistory cap f r s in
  canUndo c = true /\
  currentImage (handleUndo c) = currentImage cap /\
  currentImage (handleRedo (handleUndo c)) = Some f.
Proof.
  intros Hv c. destruct (commit_cursor cap s f r Hv) as [Hh Hi].
  fold c in Hh, Hi.
  assert (U : canUndo c = true) by (unfold canUndo; apply Z.ltb_lt; lia).
  assert (Ui : historyIndex (handleUndo c) = historyIndex cap)
    by (rewrite HistoryFacts.undo_index, U; lia).
  assert (L : Z.of_nat (List.length (history c)) = historyIndex cap + 2).
  { rewrite Hh. unfold JS.push. rewrite length_app, length_firstn. simpl. lia. }
  split; [exact U|]. split.
  - unfold currentImage. rewrite HistoryFacts.undo_history, Ui, Hh.
    apply index_push_firstn; lia.
  - unfold currentImage.
    rewrite HistoryFacts.redo_history, HistoryFacts.redo_index.
    unfold canRedo. rewrite HistoryFacts.undo_history, Ui, L.
    destruct (Z.ltb_spec (historyIndex cap) (historyIndex cap + 2 - 1)); [|lia].
    replace (historyIndex cap + 1)
      with (Z.of_nat (List.length (history c)) - 1) by lia.
    rewrite Hh. apply index_push_last.
Qed.

Lemma commit_undo_redo_witness :
  let late := addImageToHistory Samples.edited (Samples.photo "d") false
                (handleImageUpload (Samples.photo "z") Samples.edited) in
  currentImage (handleImageUpload (Samples.photo "z") Samples.edited)
  = Some (Samples.photo "z") /\
  currentImage (handleUndo late) = Some (Samples.photo "b") /\
  currentImage (handleRedo (handleUndo late)) = Some (Samples.photo "d").
Proof.
  intros late.
  destruct (commit_undo_redo Samples.edited
              (handleImageUpload (Samples.photo "z") Samples.edited)
              (Samples.photo "d") false)
    as (_ & U & R); [simpl; lia|].
  split; [reflexivity|]. split; [exact U | exact R].
Defined.

(** X3: a commit keeps the original of the history it was issued on: with
    the cursor of the render the commit was issued in on one of the
    indices of its history, the original image after the commit is the
    original image of that render, whatever the application holds when the
    commit arrives. So an edit made without [await], or one whose result
    arrives while the history is as it was, never replaces the original,
    and a result that arrives after another image was uploaded brings the
    earlier original back. An undo, a redo and a reset keep the original
    image. *)
Theorem original_is_kept (cap s : State) (f : File.t) (r : bool) :
  0 <= historyIndex cap < Z.of_nat (List.length (history cap)) ->
  originalImage (addImageToHistory cap f r s) = originalImage cap /\
  (history s = history cap ->
   originalImage (addImageToHistory cap f r s) = originalImage s) /\
  originalImage (handleUndo s) = originalImage s /\
  originalImage (handleRedo s) = originalImage s /\
  originalImage (handleReset s) = originalImage s.
Proof.
  intros Hv.
  assert (C : originalImage (addImageToHistory cap f r s) = originalImage cap).
  { unfold originalImage. destruct (commit_cursor cap s f r Hv) as [-> _].
    apply index_push_firstn; lia. }
  split; [exact C|]. split; [|unfold originalImage; repeat split].
  - intros E. rewrite C. unfold originalImage. now rewrite E.
  - now rewrite HistoryFacts.undo_history.
  - now rewrite HistoryFacts.redo_history.
  - unfold handleReset. now destruct (0 <? _).
Qed.

Lemma original_is_kept_witness :
  let uploaded := handleImageUpload (Samples.photo "z") Samples.edited in
  originalImage (addImageToHistory Samples.edited (Samples.photo "d") true
                   Samples.edited) = Some (Samples.photo "a") /\
  originalImage uploaded = Some (Samples.photo "z") /\
  originalImage (addImageToHistory Samples.edited (Samples.photo "d") true
                   uploaded) = Some (Samples.photo "a").
Proof.
  intros uploaded.
  destruct (original_is_kept Samples.edited Samples.edited (Samples.photo "d")
              true) as (C & _); [simpl; lia|].
  destruct (original_is_kept Samples.edited uploaded (Samples.photo "d") true)
    as (L & _); [simpl; lia|].
  split; [exact C|]. split; [reflexivity | exact L].
Defined.

(** X4: on a history whose cursor is one of its indices, the reset shows
    the original image, and so does undoing as many times as the cursor is
    from the start; both leave the same history and the same cursor. *)
Theorem reset_is_undo_to_start (s : State) :
  0 <= historyIndex s < Z.of_nat (List.length (history s)) ->
  let u := Nat.iter (Z.to_nat (historyIndex s)) handleUndo s in
  history u = history (handleReset s) /\
  historyIndex u = historyIndex (handleReset s) /\
  currentImage (handleReset s) = originalImage s /\
  currentImage u = originalImage s /\
  canUndo (handleReset s) = false.
Proof.
  intros Hv u.
  destruct (undo_iter (Z.to_nat (historyIndex s)) s) as [Hh Hi]; [lia|].
  fold u in Hh, Hi.
  assert (R : history (handleReset s) = history s /\ historyIndex (handleReset s) = 0).
  { unfold handleReset.
    destruct (Z.ltb_spec 0 (Z.of_nat (List.length (history s)))); [|lia].
    now split. }
  destruct R as [Rh Ri].
  unfold currentImage, originalImage, canUndo.
  rewrite Hh, Hi, Rh, Ri.
  repeat split; try reflexivity; try lia. f_equal. lia.
Qed.

Lemma reset_is_undo_to_start_witness :
  currentImage (handleReset Samples.edited) = Some (Samples.photo "a") /\
  currentImage (Nat.iter 1 handleUndo Samples.edited) = Some (Samples.photo "a").
Proof.
  destruct (reset_is_undo_to_start Samples.edited) as (_ & _ & R & U & _);
    [simpl; lia|].
  split; [exact R | exact U].
Defined.

End HistoryMore.

(** ** More on the application *)

Module AppMore.

Import App.

Lemma transient_reset_commit cap f r t :
  transient_reset (addImageToHistory cap f r t).
Proof. unfold addImageToHistory. destruct r; repeat split. Qed.

Lemma same_history (s s' : State) :
  history s' = history s -> historyIndex s' = historyIndex s -> reset_or_same s s'.
Proof. intros. right. now split. Qed.

Lemma settle_reset_or_same b p o s : reset_or_same s (settle b p o s).
Proof.
  unfold settle.
  destruct (call p);
    [ unfold handleGenerate_resume | unfold handleApplyFilter_resume
    | unfold handleApplyAdjustment_resume | unfold handleAutoAdjust_resume
    | unfold handleUpscale_resume | unfold handlePassportBgChange_resume | ];
    try (match goal with
         | |- reset_or_same ?s (tryCommit ?b ?o ?n ?k ?f ?d ?s) =>
             destruct (AppFacts.tryCommit_cases b o n k f d s) as [[x ->]|[x ->]];
             [ left; repeat split | now apply same_history ]
         end).
  destruct o.
  - unfold sheet_onload. destruct (sheetFile _ _ _ _) as [f|].
    + left. repeat split.
    + now apply same_history.
  - now apply same_history.
Qed.

Lemma later_reset_or_same (f : State -> State * option Pending) (w : World) :
  (forall s, history (fst (f s)) = history s /\
             historyIndex (fst (f s)) = historyIndex s) ->
  reset_or_same (app w) (app (later f w)).
Proof.
  intros Hf. unfold later. destruct (Hf (app w)) as [Hh Hi].
  destruct (f (app w)) as [s p]. now apply same_history.
Qed.

Lemma handle_reset_or_same b e w : reset_or_same (app w) (app (handle b e w)).
Proof.
  destruct e; simpl;
    try (now apply same_history);
    try (apply later_reset_or_same; intros s; apply AppFacts.issue_keeps_history).
  - (* FileSelect *) left. repeat split.
  - (* ImageClick *)
    unfold handleImageClick. destruct (activeTab (app w)); now apply same_history.
  - (* Generate *)
    apply later_reset_or_same. intros s. unfold handleGenerate.
    destruct (currentImage s); [|now split].
    destruct (blank (prompt s)); [now split|].
    destruct (editHotspot s); now split.
  - (* ApplyCrop *)
    unfold handleApplyCrop.
    destruct (completedCrop (app w)), (Browser.imgRef b);
      try (now apply same_history).
    destruct (Raster.cropImageToFile _ _ _ _); [|now apply same_history].
    left. apply transient_reset_commit.
  - (* PassportCrop *)
    unfold handlePassportCrop.
    destruct (completedCrop (app w)), (Browser.imgRef b);
      try (now apply same_history).
    destruct (Raster.cropImageToFile _ _ _ _); now apply same_history.
  - (* SheetGenerate *)
    apply later_reset_or_same. intros s. unfold handleSheetGenerate.
    destruct (currentImageUrl s); [|now split].
    destruct (negb _); now split.
  - (* ClickUndo *)
    unfold handleUndo. destruct (canUndo (app w));
      [left; repeat split | now apply same_history].
  - (* ClickRedo *)
    unfold handleRedo. destruct (canRedo (app w));
      [left; repeat split | now apply same_history].
  - (* ClickReset *)
    unfold handleReset. destruct (0 <? _);
      [left; repeat split | now apply same_history].
  - (* ClickUploadNew *) left. repeat split.
  - (* Settle *)
    destruct (nth_error (inflight w) k); [|now apply same_history].
    apply settle_reset_or_same.
Qed.

Lemma effect_keeps_reset (s : State) :
  history (activeTabEffect s) = history s /\
  historyIndex (activeTabEffect s) = historyIndex s /\
  (transient_reset s -> transient_reset (activeTabEffect s)).
Proof.
  unfold activeTabEffect, transient_reset.
  destruct (activeTab s); simpl; tauto.
Qed.

(** X5: whatever the event, when the history or the cursor is not what it
    was before, the pending crop, the completed crop, both hotspots and the
    adjustments are reset. *)
Theorem history_change_resets_transient (b : Browser.t) (e : Event) (w : World) :
  let w' := step b e w in
  history (app w') <> history (app w) \/
  historyIndex (app w') <> historyIndex (app w) ->
  transient_reset (app w').
Proof.
  intros w' Hc. subst w'. revert Hc. unfold step.
  pose proof (handle_reset_or_same b e w) as H.
  destruct (effect_keeps_reset (app (handle b e w))) as (Eh & Ei & Et).
  destruct (Tab.eqb _ _); cbn [now app]; rewrite ?Eh, ?Ei; intros Hc;
    (destruct H as [H|[Hh Hi]]; [auto | exfalso; tauto]).
Qed.

Lemma history_change_resets_transient_witness :
  let w := {| app := setAdjustments Samples.look Samples.edited; inflight := [] |} in
  adjustments (app (step Samples.browser ClickUndo w))
  = AdjustmentPanel.initialAdjustments.
Proof.
  intros w.
  destruct (history_change_resets_transient Samples.browser ClickUndo w)
    as (_ & _ & _ & _ & A).
  - right. simpl. lia.
  - exact A.
Defined.

(** X6: a click on a tab other than the passport tab leaves the
    adjustments, the hotspots, the pending and the completed crop, the
    prompt, the history and the calls in flight as they are; a click on the
    passport tab from another tab resets the transient state. *)
Theorem tab_click_keeps_work (b : Browser.t) (w : World) :
  (forall tab, tab <> Tab.passport ->
     let w' := step b (TabClick tab) w in
     activeTab (app w') = tab /\
     adjustments (app w') = adjustments (app w) /\
     editHotspot (app w') = editHotspot (app w) /\
     displayHotspot (app w') = displayHotspot (app w) /\
     crop (app w') = crop (app w) /\
     completedCrop (app w') = completedCrop (app w) /\
     prompt (app w') = prompt (app w) /\
     history (app w') = history (app w) /\
     historyIndex (app w') = historyIndex (app w) /\
     inflight w' = inflight w) /\
  (activeTab (app w) <> Tab.passport ->
     transient_reset (app (step b (TabClick Tab.passport) w))).
Proof.
  split.
  - intros tab Ht w'. subst w'. unfold step. simpl.
    destruct (Tab.eqb _ _); simpl.
    + repeat split.
    + unfold activeTabEffect. simpl. destruct tab; try congruence; repeat split.
  - intros Ht. unfold step. simpl.
    rewrite AppFacts.tab_eqb_neq by exact Ht. repeat split.
Qed.

Lemma tab_click_keeps_work_witness :
  let w := {| app := setAdjustments Samples.look Samples.edited; inflight := [] |} in
  adjustments (app (step Samples.browser (TabClick Tab.filters) w)) = Samples.look /\
  adjustments (app (step Samples.browser (TabClick Tab.passport) w))
  = AdjustmentPanel.initialAdjustments.
Proof.
  intros w.
  destruct (tab_click_keeps_work Samples.browser w) as [K P].
  destruct (K Tab.filters) as (_ & A & _); [discriminate|].
  destruct P as (_ & _ & _ & _ & R); [simpl; discriminate|].
  split; [exact A | exact R].
Defined.

(** The data URL decides whether there is a file; the name only names it. *)
Lemma dataURLtoFile_name (b : Browser.t) (url n n' : string) (f : File.t) :
  Raster.dataURLtoFile b url n = JS.Ok f ->
  Raster.dataURLtoFile b url n'
  = JS.Ok {| File.name := n'; File.type := File.type f; File.bits := File.bits f |}.
Proof.
  unfold Raster.dataURLtoFile.
  destruct (_ <? 2); [discriminate|].
  destruct (Raster.match_mime _) as [mime|]; [|discriminate].
  destruct (negb _); [discriminate|].
  destruct (Browser.atob b _) as [bits|t]; simpl; [|discriminate].
  intros H. injection H as <-. reflexivity.
Qed.

Lemma tryCommit_fulfilled b value n name onOk failed otherwise s f :
  Raster.dataURLtoFile b value n = JS.Ok f ->
  tryCommit b (fulfilled value) name onOk failed otherwise s
  = setIsLoading false
      (onOk {| File.name := name; File.type := File.type f;
               File.bits := File.bits f |} s).
Proof.
  intros Hf. unfold tryCommit. cbn [awaited JS.bind].
  now rewrite (dataURLtoFile_name b value n name f Hf).
Qed.

(** The history and the cursor behind the setters of other variables. *)
Lemma through_setIsLoading v s :
  history (setIsLoading v s) = history s /\
  historyIndex (setIsLoading v s) = historyIndex s.
Proof. split; reflexivity. Qed.

Lemma through_setPrompt v s :
  history (setPrompt v s) = history s /\
  historyIndex (setPrompt v s) = historyIndex s.
Proof. split; reflexivity. Qed.

Lemma through_setPassportStep v s :
  history (setPassportStep v s) = history s /\
  historyIndex (setPassportStep v s) = historyIndex s.
Proof. split; reflexivity. Qed.

Ltac through_setters :=
  repeat first
    [ rewrite (proj1 (through_setIsLoading _ _))
    | rewrite (proj2 (through_setIsLoading _ _))
    | rewrite (proj1 (through_setPrompt _ _))
    | rewrite (proj2 (through_setPrompt _ _))
    | rewrite (proj1 (through_setPassportStep _ _))
    | rewrite (proj2 (through_setPassportStep _ _)) ].

(** X7: the result of a generator call is committed to the history the
    handler saw when it issued the call, not to the history at the time the
    result arrives: when the data URL of the result can be read, the history
    becomes the first cursor+1 entries of that earlier history followed by
    the result, whatever the application holds by then. *)
Theorem result_lands_on_captured_history (b : Browser.t) (p : Pending)
    (value n : string) (f : File.t) (s : State) :
  Raster.dataURLtoFile b value n = JS.Ok f ->
  match call p with
  | decodeImage _ _ _ _ => True
  | _ =>
      exists file,
        File.type file = File.type f /\ File.bits file = File.bits f /\
        history (settle b p (fulfilled value) s)
        = JS.push
            (JS.slice0 (history (captured p)) (historyIndex (captured p) + 1))
            file /\
        currentImage (settle b p (fulfilled value) s) = Some file
  end.
Proof.
  intros Hf. unfold settle.
  destruct (call p); trivial;
    [ unfold handleGenerate_resume | unfold handleApplyFilter_resume
    | unfold handleApplyAdjustment_resume | unfold handleAutoAdjust_resume
    | unfold handleUpscale_resume | unfold handlePassportBgChange_resume ];
    match goal with
    | |- context [tryCommit b _ ?m ?k ?fl ?d s] =>
        rewrite (tryCommit_fulfilled b value n m k fl d s f Hf);
        exists {| File.name := m; File.type := File.type f;
                  File.bits := File.bits f |}
    end;
    (split; [reflexivity|]); (split; [reflexivity|]);
    unfold currentImage; through_setters;
    rewrite HistoryFacts.commit_index, HistoryFacts.commit_history;
    (split; [reflexivity | apply index_push_last]).
Qed.

Lemma result_lands_on_captured_history_witness :
  exists file,
    history (settle Samples.browser
               {| call := generateUpscaledImage (Samples.photo "b");
                  captured := Samples.edited |}
               (fulfilled "data:image/png;base64,QUJD")
               (handleUploadNew Samples.edited))
    = [Samples.photo "a"; Samples.photo "b"; file].
Proof.
  pose proof (result_lands_on_captured_history Samples.browser
                {| call := generateUpscaledImage (Samples.photo "b");
                   captured := Samples.edited |}
                "data:image/png;base64,QUJD" "n"
                {| File.name := "n"; File.type := "image/png"; File.bits := "QUJD" |}
                (handleUploadNew Samples.edited)
                eq_refl) as H.
  cbv beta iota delta [call] in H.
  destruct H as (file & _ & _ & H & _).
  exists file. rewrite H. reflexivity.
Defined.

(** X8: an upload replaces the whole history by the uploaded image,
    whatever the state was: no undo, no redo, the retouch tab, the passport
    workflow idle without a cropped image, the transient state reset and no
    error; the calls in flight stay in flight and the busy flag is not
    touched. *)
Theorem upload_replaces_history (b : Browser.t) (file : File.t) (w : World) :
  let w' := step b (FileSelect file) w in
  history (app w') = [file] /\
  historyIndex (app w') = 0 /\
  currentImage (app w') = Some file /\
  originalImage (app w') = Some file /\
  canUndo (app w') = false /\
  canRedo (app w') = false /\
  activeTab (app w') = Tab.retouch /\
  passportStep (app w') = PassportStep.idle /\
  passportCroppedImage (app w') = None /\
  transient_reset (app w') /\
  error (app w') = None /\
  inflight w' = inflight w /\
  isLoading (app w') = isLoading (app w).
Proof.
  intros w'. subst w'. unfold step. simpl.
  destruct (Tab.eqb _ _); repeat split.
Qed.

(** X9: the retouch handler checks before it calls: it issues a call
    exactly when there is a current image, the prompt is not blank and a
    hotspot is set. Otherwise it sets an error message and leaves the busy
    flag and the history alone; when it does issue the call, for that image,
    prompt and hotspot, it sets the busy flag and clears the error. *)
Theorem generate_validates (s : State) :
  (snd (handleGenerate s) = None <->
   currentImage s = None \/ blank (prompt s) = true \/ editHotspot s = None) /\
  (snd (handleGenerate s) = None ->
   (exists m, error (fst (handleGenerate s)) = Some m) /\
   isLoading (fst (handleGenerate s)) = isLoading s /\
   history (fst (handleGenerate s)) = history s /\
   historyIndex (fst (handleGenerate s)) = historyIndex s) /\
  (forall p, snd (handleGenerate s) = Some p ->
   isLoading (fst (handleGenerate s)) = true /\
   error (fst (handleGenerate s)) = None /\
   captured p = s /\
   exists image hotspot,
     currentImage s = Some image /\ editHotspot s = Some hotspot /\
     call p = generateEditedImage image (prompt s) hotspot).
Proof.
  unfold handleGenerate.
  destruct (currentImage s) as [image|];
    [destruct (blank (prompt s));
     [|destruct (editHotspot s) as [hotspot|]]|];
    cbn [fst snd].
  - split; [split; auto|]. split; [|discriminate].
    intros _. split; [eexists; reflexivity | repeat split].
  - split; [split; [discriminate | intros [H|[H|H]]; discriminate]|].
    split; [discriminate|].
    intros p H. injection H as <-.
    split; [reflexivity|]. split; [reflexivity|]. split; [reflexivity|].
    exists image, hotspot. repeat split.
  - split; [split; auto|]. split; [|discriminate].
    intros _. split; [eexists; reflexivity | repeat split].
  - split; [split; auto|]. split; [|discriminate].
    intros _. split; [eexists; reflexivity | repeat split].
Qed.

Lemma generate_validates_witness :
  let s := setPrompt (" " ++ Samples.nbsp ++ Samples.em_space)
             (setEditHotspot (Some (1, 1)%float) Samples.edited) in
  snd (handleGenerate s) = None /\
  isLoading (fst (handleGenerate s)) = false.
Proof.
  intros s. destruct (generate_validates s) as ([_ N] & E & _).
  assert (H : snd (handleGenerate s) = None)
    by (apply N; right; left; reflexivity).
  split; [exact H|]. destruct (E H) as (_ & L & _). exact L.
Defined.

(** X10: confirming the passport crop is not an edit: whatever happens the
    history and the cursor stay as they are. When the crop gives a file,
    that file becomes the cropped-passport image, the workflow moves to
    [background] and the transient state is reset; when it throws, only the
    error message is set. *)
Theorem passport_crop_is_not_an_edit (b : Browser.t) (s : State) :
  history (handlePassportCrop b s) = history s /\
  historyIndex (handlePassportCrop b s) = historyIndex s /\
  (forall c img f,
     completedCrop s = Some c -> Browser.imgRef b = Some img ->
     Raster.cropImageToFile b img c ("passport-crop-" ++ Browser.now b ++ ".png")
     = JS.Ok f ->
     passportCroppedImage (handlePassportCrop b s) = Some f /\
     passportStep (handlePassportCrop b s) = PassportStep.background /\
     transient_reset (handlePassportCrop b s)) /\
  (forall c img t,
     completedCrop s = Some c -> Browser.imgRef b = Some img ->
     Raster.cropImageToFile b img c ("passport-crop-" ++ Browser.now b ++ ".png")
     = JS.Throw t ->
     handlePassportCrop b s
     = setError (Some ("Failed to crop for passport. "
                         ++ message t "Unknown error")%string) s).
Proof.
  unfold handlePassportCrop.
  split; [|split; [|split]].
  - destruct (completedCrop s), (Browser.imgRef b); trivial.
    now destruct (Raster.cropImageToFile _ _ _ _).
  - destruct (completedCrop s), (Browser.imgRef b); trivial.
    now destruct (Raster.cropImageToFile _ _ _ _).
  - intros c img f Hc Hi Hf. rewrite Hc, Hi, Hf. repeat split.
  - intros c img t Hc Hi Hf. rewrite Hc, Hi, Hf. reflexivity.
Qed.

Lemma passport_crop_is_not_an_edit_witness :
  let s := setCompletedCrop (Some Samples.crop70x90) Samples.edited in
  passportStep (handlePassportCrop Samples.browser s) = PassportStep.background /\
  history (handlePassportCrop Samples.browser s) = history s.
Proof.
  intros s.
  destruct (passport_crop_is_not_an_edit Samples.browser s) as (H & _ & S & _).
  destruct (S Samples.crop70x90
              {| Img.naturalWidth := 2000; Img.naturalHeight := 1000;
                 Img.width := 1000; Img.height := 500 |}
              {| File.name := "passport-crop-0.png"; File.type := "image/png";
                 File.bits := "AAAA" |})
    as (_ & P & _); [reflexivity..|].
  split; [exact P | exact H].
Defined.

End AppMore.

(** ** More on files and crops *)

Module RasterMore.

Import Raster.

(** X11: a string without a comma is no data URL: [dataURLtoFile] throws
    "Invalid data URL", whatever the browser. *)
Theorem no_comma_is_invalid (b : Browser.t) (url filename : string) :
  Reference.occurs "," url = false ->
  dataURLtoFile b url filename = JS.Throw (JS.ErrorObject "Invalid data URL").
Proof.
  intros H. unfold dataURLtoFile.
  now rewrite (RasterFacts.split_no_comma url H).
Qed.

Lemma no_comma_is_invalid_witness :
  dataURLtoFile Samples.browser "blob:https://pixshop/0" "x.png"
  = JS.Throw (JS.ErrorObject "Invalid data URL").
Proof.
  apply (no_comma_is_invalid Samples.browser "blob:https://pixshop/0" "x.png").
  reflexivity.
Defined.

(** X12: a data URL [data:<mime>;base64,<payload>] whose MIME type is made
    of characters U+0020 to U+007E other than [;] and [,], with a payload
    without a comma, becomes the file with the given name, that MIME type
    in lower case and the decoded payload as its bytes; it throws only what
    [atob] throws. *)
Theorem data_url_becomes_file (b : Browser.t) (mime payload filename : string) :
  Reference.plain_mime mime ->
  Reference.occurs "," payload = false ->
  dataURLtoFile b ("data:" ++ mime ++ ";base64," ++ payload) filename
  = match Browser.atob b payload with
    | JS.Ok bstr =>
        JS.Ok {| File.name := filename; File.type := File.lowercase mime;
                 File.bits := bstr |}
    | JS.Throw t => JS.Throw t
    end.
Proof. intros Hm Hp. now apply RasterFacts.data_url_parses. Qed.

Lemma data_url_becomes_file_witness :
  dataURLtoFile Samples.browser "data:IMAGE/jpeg;base64,QUJD" "sheet.jpg"
  = JS.Ok {| File.name := "sheet.jpg"; File.type := "image/jpeg";
             File.bits := "QUJD" |}.
Proof.
  apply (data_url_becomes_file Samples.browser "IMAGE/jpeg" "QUJD" "sheet.jpg").
  - repeat split. discriminate.
  - reflexivity.
Defined.

End RasterMore.

(** ** More on cropping *)

Module CropMore.

Import App.

(** X13: applying a completed crop of zero width is no edit: the history
    and the cursor stay as they are; with an image on the page an error
    message is set, without one nothing happens at all. *)
Theorem apply_crop_rejects_empty (b : Browser.t) (s : State) (c : PixelCrop.t) :
  completedCrop s = Some c ->
  PixelCrop.width c = 0%float ->
  history (handleApplyCrop b s) = history s /\
  historyIndex (handleApplyCrop b s) = historyIndex s /\
  (Browser.imgRef b <> None -> exists m, error (handleApplyCrop b s) = Some m) /\
  (Browser.imgRef b = None -> handleApplyCrop b s = s).
Proof.
  intros Hc Hw. unfold handleApplyCrop. rewrite Hc.
  destruct (Browser.imgRef b) as [img|].
  - destruct (AppFacts.empty_crop_throws b img c
                ("cropped-" ++ Browser.now b ++ ".png")%string Hw) as [t ->].
    repeat split; try discriminate. intros _. eexists. reflexivity.
  - repeat split. congruence.
Qed.

Lemma apply_crop_rejects_empty_witness :
  let s := setCompletedCrop (Some Samples.empty_crop) Samples.edited in
  history (handleApplyCrop Samples.browser s) = history s /\
  exists m, error (handleApplyCrop Samples.browser s) = Some m.
Proof.
  intros s.
  destruct (apply_crop_rejects_empty Samples.browser s Samples.empty_crop)
    as (H & _ & E & _); [reflexivity..|].
  split; [exact H | apply E; discriminate].
Defined.



End CropMore.

(** ** More on the passport sheet *)

Module SheetMore.

Import Raster.

Lemma firstn_seq (n : nat) : forall start len,
  firstn n (seq start len) = seq start (Nat.min n len).
Proof.
  induction n as [|n IH]; intros start len; [reflexivity|].
  destruct len as [|len]; [reflexivity|]. simpl. now rewrite IH.
Qed.

(** The photos of a sheet are the first of the full page. *)
Lemma photos_prefix (sheetSize : SheetSize) (layout : Layout) (photoCount : Z) :
  photos (Canvas.ops (composeSheet sheetSize layout photoCount))
  = firstn (Z.to_nat photoCount)
      (map (Reference.position sheetSize layout)
         (seq 0 (Reference.capacity sheetSize layout))).
Proof.
  unfold composeSheet. rewrite SheetFacts.sheet_drawing.
  rewrite SheetFacts.photos_sheet_ops, firstn_map, firstn_seq. reflexivity.
Qed.

Lemma forallb_firstn {A : Type} (f : A -> bool) (n : nat) : forall l,
  forallb f l = true -> forallb f (firstn n l) = true.
Proof.
  induction n as [|n IH]; intros l H; [reflexivity|].
  destruct l as [|x l]; [reflexivity|]. simpl in *.
  apply andb_true_iff in H as [Hx Hl]. now rewrite Hx, IH.
Qed.

Lemma pairwise_firstn {A : Type} (r : A -> A -> bool) (n : nat) : forall l,
  Reference.pairwise r l = true -> Reference.pairwise r (firstn n l) = true.
Proof.
  induction n as [|n IH]; intros l H; [reflexivity|].
  destruct l as [|x l]; [reflexivity|]. simpl in *.
  apply andb_true_iff in H as [Hx Hl].
  now rewrite (forallb_firstn _ n l Hx), IH.
Qed.

(** The full page of every preset, by running the checks. *)
Lemma full_page_checks (sheetSize : SheetSize) (layout : Layout) :
  let page := map (Reference.position sheetSize layout)
                (seq 0 (Reference.capacity sheetSize layout)) in
  forallb (Reference.on_page (geometry sheetSize layout)) page = true /\
  Reference.pairwise (Reference.apart (geometry sheetSize layout)) page = true.
Proof. destruct sheetSize, layout; split; vm_compute; reflexivity. Qed.

(** X15: whatever the preset, the orientation and the count, every photo
    drawn on a sheet lies on the page with the margin free on every side,
    and any two photos of a sheet are a margin apart, side by side or one
    above the other: photos never overlap and never touch the edge. *)
Theorem photos_on_page_and_apart (sheetSize : SheetSize) (layout : Layout)
    (photoCount : Z) :
  let g := geometry sheetSize layout in
  let drawn := photos (Canvas.ops (composeSheet sheetSize layout photoCount)) in
  (forall p, In p drawn -> Reference.on_page g p = true) /\
  Reference.pairwise (Reference.apart g) drawn = true.
Proof.
  intros g drawn. subst drawn. rewrite photos_prefix.
  destruct (full_page_checks sheetSize layout) as [Ho Ha].
  split.
  - apply forallb_forall. now apply forallb_firstn.
  - now apply pairwise_firstn.
Qed.

Lemma photos_on_page_and_apart_witness :
  Reference.on_page (geometry SizeA4 portrait)
    (Reference.position SizeA4 portrait 7) = true.
Proof.
  destruct (photos_on_page_and_apart SizeA4 portrait 12) as [H _].
  apply H. vm_compute. do 7 right. left. reflexivity.
Defined.

(** X16: whatever the count, the sheet has the size of the page in pixels
    at 300 dots per inch (8.27 in and 11.69 in come out as 2481 and 3507
    pixels exactly), and the landscape page is the portrait page turned. *)
Theorem sheet_has_page_size (sheetSize : SheetSize) (layout : Layout)
    (photoCount : Z) :
  (Canvas.width (composeSheet sheetSize layout photoCount),
   Canvas.height (composeSheet sheetSize layout photoCount))
  = Reference.page_pixels sheetSize layout /\
  Reference.page_pixels sheetSize landscape
  = (snd (Reference.page_pixels sheetSize portrait),
     fst (Reference.page_pixels sheetSize portrait)).
Proof.
  split; [|now destruct sheetSize].
  unfold composeSheet.
  destruct (SheetFacts.for_loop_size (Z.to_nat photoCount)
              (geometry sheetSize layout)
              (loop_init (geometry sheetSize layout))) as [-> ->].
  destruct sheetSize, layout; vm_compute; reflexivity.
Qed.

(** X17: the handler itself does not check the count: for a count of zero
    or less the sheet is the white page without a photo, and once its file
    is built [img.onload] commits it like any other sheet, clears the busy
    flag and returns the workflow to [idle]. *)
Theorem empty_sheet_is_committed (b : Browser.t) (cap s : App.State)
    (sheetSize : SheetSize) (layout : Layout) (photoCount : Z) (file : File.t) :
  photoCount <= 0 ->
  App.sheetFile b sheetSize layout photoCount = JS.Ok file ->
  let g := geometry sheetSize layout in
  let s' := App.sheet_onload b cap sheetSize layout photoCount s in
  Canvas.ops (composeSheet sheetSize layout photoCount)
  = [Canvas.fillRect "white" 0 0 (sheetW_px g) (sheetH_px g)] /\
  App.currentImage s' = Some file /\
  App.isLoading s' = false /\
  App.passportStep s' = PassportStep.idle.
Proof.
  intros Hn Hf g s'. subst s'. split.
  - unfold composeSheet. replace (Z.to_nat photoCount) with 0%nat by lia.
    reflexivity.
  - unfold App.sheet_onload. rewrite Hf.
    split; [|split; reflexivity].
    unfold App.currentImage.
    rewrite (proj1 (AppMore.through_setPassportStep _ _)),
            (proj2 (AppMore.through_setPassportStep _ _)),
            (proj1 (AppMore.through_setIsLoading _ _)),
            (proj2 (AppMore.through_setIsLoading _ _)).
    rewrite HistoryFacts.commit_index, HistoryFacts.commit_history.
    apply index_push_last.
Qed.

Lemma empty_sheet_is_committed_witness :
  Canvas.ops (composeSheet Size5x7 landscape 0)
  = [Canvas.fillRect "white" 0 0 2100 1500] /\
  App.passportStep
    (App.sheet_onload Samples.browser Samples.edited Size5x7 landscape 0
       Samples.edited) = PassportStep.idle.
Proof.
  destruct (empty_sheet_is_committed Samples.browser Samples.edited
              Samples.edited Size5x7 landscape 0
              {| File.name := "passport-sheet-5x7-landscape-0.jpg";
                 File.type := "image/jpeg"; File.bits := "AAAA" |})
    as (O & _ & _ & P); [lia | reflexivity |].
  split; [exact O | exact P].
Defined.

End SheetMore.

(** ** The passport panel *)

Module PanelMore.

Import PassportPanel.

(** A number above zero allows at least one round of the loop. *)
Lemma rounds_positive (count : float) :
  (0 <? count)%float = true -> 1 <= rounds count.
Proof.
  rewrite ltb_spec. unfold rounds.
  change (Prim2SF 0) with (S754_zero false).
  destruct (Prim2SF count) as [[|]|[|]| |[|] m e]; try discriminate; intros _.
  destruct e as [|p|p].
  - lia.
  - rewrite Z.shiftl_mul_pow2 by lia.
    assert (H : 0 < 2 ^ Z.pos p) by (apply Z.pow_pos_nonneg; lia).
    set (x := 2 ^ Z.pos p) in *. nia.
  - assert (H : 0 < 2 ^ Z.pos p) by (apply Z.pow_pos_nonneg; lia).
    set (x := 2 ^ Z.pos p) in *. apply Z.div_le_lower_bound; lia.
Qed.

(** X18: "Generate Printable Sheet" asks for a sheet only when the Number
    that [parseInt] reads from the input is not NaN and is above zero, the
    workflow is at [sheet] and nothing is in progress; it passes that
    Number with the chosen size and layout, the loop of the sheet then has
    at least one round, and the sheet holds at least one photo. *)
Theorem generate_passes_positive_count (s : App.State) (l : Local)
    (cb : Callback) :
  click s l GenerateSheet = Some cb ->
  exists count,
    count = parseInt (photoCount l) /\
    is_nan count = false /\ (0 <? count)%float = true /\
    cb = onSheetGenerate (sheetSize l) (layout l) count /\
    App.passportStep s = PassportStep.sheet /\
    App.isLoading s = false /\
    1 <= rounds count /\
    Raster.photos
      (Canvas.ops (Raster.composeSheet (sheetSize l) (layout l) (rounds count)))
    <> [].
Proof.
  unfold click, generate_disabled, generate_click.
  destruct (App.passportStep s); try discriminate.
  destruct (App.isLoading s); [discriminate|].
  cbn [shown orb andb negb].
  destruct (negb (negb (JS.truthy (photoCount l)) || _)); [|discriminate].
  set (count := parseInt (photoCount l)).
  destruct (is_nan count) eqn:N; [discriminate|].
  destruct (0 <? count)%float eqn:P; [|discriminate].
  cbn [negb andb]. intros Hcb. injection Hcb as <-. exists count.
  pose proof (rounds_positive count P) as R.
  repeat split; trivial.
  rewrite SheetMore.photos_prefix.
  destruct (Z.to_nat (rounds count)) as [|k] eqn:E; [lia|].
  destruct (sheetSize l), (layout l); discriminate.
Qed.

Lemma generate_passes_positive_count_witness :
  parseInt "9007199254740993" = 9007199254740992%float /\
  exists count,
    count = parseInt "8" /\ (0 <? count)%float = true /\
    rounds count = 8 /\
    click (App.setPassportStep PassportStep.sheet Samples.edited) initial
      GenerateSheet
    = Some (onSheetGenerate Raster.Size4x6 Raster.portrait count).
Proof.
  destruct (generate_passes_positive_count
              (App.setPassportStep PassportStep.sheet Samples.edited) initial
              (onSheetGenerate Raster.Size4x6 Raster.portrait (parseInt "8"))
              eq_refl)
    as (count & E & _ & P & C & _).
  split; [vm_compute; reflexivity|].
  exists count. split; [exact E|]. split; [exact P|].
  injection C as <-. split; reflexivity.
Defined.

(** X19: a button of the panel calls its property only while nothing is in
    progress and the workflow is at the step of the button: "Confirm Crop"
    at [cropping] and only for a completed crop of width above zero,
    "Change Background" at [background] with the chosen colour, "Generate
    Printable Sheet" at [sheet], "Start Over" at [background] or [sheet]. *)
Theorem panel_click_guard (s : App.State) (l : Local) (button : Button)
    (cb : Callback) :
  click s l button = Some cb ->
  App.isLoading s = false /\
  match button with
  | ConfirmCrop =>
      cb = onCropConfirm /\ App.passportStep s = PassportStep.cropping /\
      exists c, App.completedCrop s = Some c /\
                (0 <? PixelCrop.width c)%float = true
  | ChangeBackground =>
      cb = onBackgroundChange (backgroundColor l) /\
      App.passportStep s = PassportStep.background
  | GenerateSheet => App.passportStep s = PassportStep.sheet
  | StartOver =>
      cb = onReset /\
      (App.passportStep s = PassportStep.background \/
       App.passportStep s = PassportStep.sheet)
  end.
Proof.
  unfold click, confirm_disabled, generate_disabled, App.isCropping.
  destruct button.
  - destruct (App.passportStep s); try discriminate.
    destruct (App.isLoading s); [discriminate|].
    destruct (App.completedCrop s) as [c|]; [|discriminate].
    destruct (negb (is_zero _ || is_nan _)); [|discriminate].
    destruct (0 <? PixelCrop.width c)%float eqn:W; [|discriminate].
    intros H. injection H as <-.
    repeat split. now exists c.
  - destruct (App.passportStep s); try discriminate.
    destruct (App.isLoading s); [discriminate|].
    intros H. injection H as <-. repeat split.
  - destruct (App.passportStep s); try discriminate.
    destruct (App.isLoading s); [discriminate|].
    intros _. split; reflexivity.
  - destruct (App.passportStep s); try discriminate;
      (destruct (App.isLoading s); [discriminate|]);
      intros H; injection H as <-; repeat split; auto.
Qed.

Lemma panel_click_guard_witness :
  let s := App.setPassportStep PassportStep.cropping
             (App.setCompletedCrop (Some Samples.crop70x90) Samples.edited) in
  click s initial ConfirmCrop = Some onCropConfirm /\
  App.isLoading s = false /\
  exists c, App.completedCrop s = Some c /\ (0 <? PixelCrop.width c)%float = true.
Proof.
  intros s.
  destruct (panel_click_guard s initial ConfirmCrop onCropConfirm eq_refl)
    as (L & _ & _ & C).
  split; [reflexivity|]. split; [exact L | exact C].
Defined.

End PanelMore.

(** ** More on the adjustment panel *)

Module TranslatorMore.

Import AdjustmentPanel.

(** A slider that speaks and is not zero has a phrase, and it is not empty. *)
Lemma valueToText_speaks (k : AdjustmentKey) (v : Z) :
  k <> KvignetteFeather -> v <> 0 ->
  exists p, valueToText k v = Some p /\ JS.truthy p = true.
Proof.
  intros Hk Hv. unfold valueToText.
  destruct (Z.eqb_spec v 0) as [|_]; [contradiction|].
  destruct k; try congruence;
    (eexists; split; [reflexivity|]); destruct (0 <? v); reflexivity.
Qed.

Lemma forEach_body_extends (a : Adjustments) (parts : list string)
    (k : AdjustmentKey) :
  exists more, forEach_body a parts k = (parts ++ more)%list.
Proof.
  unfold forEach_body. destruct (String.prefix _ _).
  - exists []. now rewrite app_nil_r.
  - destruct (valueToText _ _) as [p|].
    + destruct (JS.truthy p); [now exists [p] | exists []; now rewrite app_nil_r].
    + exists []. now rewrite app_nil_r.
Qed.

Lemma fold_keeps_nonempty (a : Adjustments) (l : list AdjustmentKey) :
  forall parts, parts <> [] -> fold_left (forEach_body a) l parts <> [].
Proof.
  induction l as [|k l IH]; intros parts Hp; simpl; [exact Hp|].
  apply IH. destruct (forEach_body_extends a parts k) as [more ->].
  destruct parts; [congruence | discriminate].
Qed.

Lemma fold_speaks (a : Adjustments) (l : list AdjustmentKey) (k : AdjustmentKey) :
  In k l -> In k Reference.plain -> get a k <> 0 ->
  forall parts, fold_left (forEach_body a) l parts <> [].
Proof.
  intros Hl Hk Hv. induction l as [|k' l IH]; intros parts; [contradiction|].
  simpl. destruct Hl as [->|Hl]; [|now apply IH].
  apply fold_keeps_nonempty. unfold forEach_body.
  assert (P : String.prefix "vignette" (key_name k) = false).
  { simpl in Hk. repeat (destruct Hk as [<-|Hk]; [reflexivity|]). contradiction. }
  rewrite P.
  destruct (valueToText_speaks k (get a k)) as (p & -> & ->); trivial.
  - intros ->. simpl in Hk. intuition discriminate.
  - unfold JS.push. destruct parts; discriminate.
Qed.

Lemma fold_silent (a : Adjustments) (l : list AdjustmentKey) :
  (forall k, In k Reference.plain -> get a k = 0) ->
  forall parts, fold_left (forEach_body a) l parts = parts.
Proof.
  intros Hz. induction l as [|k l IH]; intros parts; [reflexivity|].
  simpl. rewrite IH. unfold forEach_body.
  destruct k; try reflexivity;
    (rewrite Hz by (simpl; tauto)); reflexivity.
Qed.

Lemma sentence_nonempty (parts : list string) :
  parts <> [] -> Reference.sentence parts <> "".
Proof. destruct parts as [|x [|y l]]; [congruence | discriminate..]. Qed.

(** The prompt is the sentence of the parts collected. *)
Lemma generatedPrompt_sentence (a : Adjustments) :
  generatedPrompt a
  = Reference.sentence
      (if negb (vignetteIntensity a =? 0) then
         JS.push (fold_left (forEach_body a) keys [])
           (match valueToText KvignetteIntensity (vignetteIntensity a) with
            | Some t => t
            | None => "null"
            end ++ " " ++ featherDesc (vignetteFeather a))%string
       else fold_left (forEach_body a) keys []).
Proof. unfold generatedPrompt. cbv zeta. apply TranslatorFacts.compose_sentence. Qed.

Lemma prompt_empty_iff (a : Adjustments) :
  generatedPrompt a = "" <-> (forall k, In k Reference.speaking -> get a k = 0).
Proof.
  rewrite generatedPrompt_sentence.
  destruct (Z.eqb_spec (vignetteIntensity a) 0) as [E|N]; cbn [negb].
  - split.
    + intros He k Hk.
      destruct (Z.eq_dec (get a k) 0) as [|Hn]; [assumption|]. exfalso.
      revert He. apply sentence_nonempty.
      simpl in Hk.
      destruct Hk as [<-|[<-|[<-|[<-|[<-|[<-|[<-|[]]]]]]]];
        try (now elim Hn);
        (eapply fold_speaks; [| |exact Hn]; simpl; tauto).
    + intros Hz. rewrite fold_silent; [reflexivity|].
      intros k Hk. apply Hz. simpl in Hk |- *. tauto.
  - split.
    + intros He. exfalso. revert He. apply sentence_nonempty.
      unfold JS.push. destruct (fold_left _ _ _); discriminate.
    + intros Hz. elim N. apply (Hz KvignetteIntensity). simpl. tauto.
Qed.

(** X20: the prompt is empty exactly when every slider that speaks is at
    zero, whatever the feather says and whatever the values are. *)
Theorem prompt_empty_only_when_neutral (a : Adjustments) :
  generatedPrompt a = "" <-> (forall k, In k Reference.speaking -> get a k = 0).
Proof. apply prompt_empty_iff. Qed.

Lemma prompt_empty_only_when_neutral_witness :
  generatedPrompt Samples.look <> "".
Proof.
  intros E.
  apply (proj1 (prompt_empty_only_when_neutral Samples.look)) with (k := Kbrightness) in E.
  - discriminate.
  - simpl. tauto.
Defined.

(** X21: the buttons of the panel are enabled by any slider that is not
    zero, the feather included, but "Apply Adjustments" submits only a
    prompt that is not empty: it is enabled and does nothing exactly when
    the feather is the only slider away from zero. *)
Theorem apply_enabled_but_silent (a : Adjustments) :
  (hasChanges a = true /\ handleApply a = None) <->
  (vignetteFeather a <> 0 /\ forall k, In k Reference.speaking -> get a k = 0).
Proof.
  assert (A : handleApply a = None <-> generatedPrompt a = "").
  { unfold handleApply. destruct (generatedPrompt a); simpl; split; congruence. }
  rewrite A, prompt_empty_iff. split.
  - intros [Hc Hz]. split; [|exact Hz].
    intros Hf. revert Hc. unfold hasChanges, values, keys.
    cbn [map existsb].
    rewrite (Hz Kbrightness), (Hz Kcontrast), (Hz Ksaturation), (Hz Ktemperature),
      (Hz Ksharpness), (Hz KvignetteIntensity), (Hz KcolorBalance)
      by (simpl; tauto).
    change (get a KvignetteFeather) with (vignetteFeather a). rewrite Hf.
    simpl. discriminate.
  - intros [Hf Hz]. split; [|exact Hz].
    unfold hasChanges, values, keys. cbn [map existsb].
    change (get a KvignetteFeather) with (vignetteFeather a).
    destruct (Z.eqb_spec (vignetteFeather a) 0) as [|_]; [contradiction|].
    cbn [negb orb]. now rewrite !orb_true_r.
Qed.

Lemma apply_enabled_but_silent_witness :
  let a := handleValueChange initialAdjustments KvignetteFeather 40 in
  hasChanges a = true /\ handleApply a = None.
Proof.
  intros a. apply (proj2 (apply_enabled_but_silent a)).
  split; [discriminate|].
  intros k Hk. simpl in Hk.
  repeat (destruct Hk as [<-|Hk]; [reflexivity|]). contradiction.
Defined.

(** X22: without a vignette the feather says nothing: when the vignette
    intensity is zero, moving the feather slider does not change the
    prompt. *)
Theorem feather_needs_vignette (a : Adjustments) (feather : Z) :
  vignetteIntensity a = 0 ->
  generatedPrompt (handleValueChange a KvignetteFeather feather) = generatedPrompt a.
Proof.
  intros Hv. destruct a as [b c s t sh vi vf cb]. simpl in Hv. subst vi.
  reflexivity.
Qed.

Lemma feather_needs_vignette_witness :
  generatedPrompt
    (handleValueChange (handleValueChange initialAdjustments Kcontrast 30)
       KvignetteFeather 90)
  = "Apply the following adjustment: increase the contrast slightly.".
Proof.
  rewrite (feather_needs_vignette
             (handleValueChange initialAdjustments Kcontrast 30) 90 eq_refl).
  reflexivity.
Defined.

(** X23: the translator does not clamp: a value beyond 100 either way finds
    no key in [intensityMap] and is described without an intensity word,
    exactly as the value 50 of the same sign is. *)
Theorem beyond_range_is_unqualified (k : AdjustmentKey) (v : Z) :
  100 < Z.abs v ->
  valueToText k v = valueToText k (if 0 <? v then 50 else -50).
Proof.
  intros Hv. unfold valueToText at 1.
  destruct (Z.eqb_spec v 0) as [|_]; [lia|].
  rewrite TranslatorFacts.intensity_out_of_range by exact Hv.
  destruct (0 <? v), k; reflexivity.
Qed.

Lemma beyond_range_is_unqualified_witness :
  valueToText Kbrightness 250 = Some "increase the brightness ".
Proof.
  rewrite (beyond_range_is_unqualified Kbrightness 250); [reflexivity|].
  simpl. lia.
Defined.

(** X24: [handleValueChange] sets the slider it is given and no other:
    reading that slider gives the new value, reading any other gives what
    it held, and writing back what a slider holds changes nothing; a value
    other than zero enables the buttons of the panel. *)
Theorem value_change_sets_one_slider (a : Adjustments) (k : AdjustmentKey)
    (v : Z) :
  get (handleValueChange a k v) k = v /\
  (forall k', k' <> k -> get (handleValueChange a k v) k' = get a k') /\
  handleValueChange a k (get a k) = a /\
  (v <> 0 -> hasChanges (handleValueChange a k v) = true).
Proof.
  split; [now destruct k|]. split; [|split].
  - intros k' Hk. destruct k, k'; try reflexivity; congruence.
  - destruct a, k; reflexivity.
  - intros Hv. unfold hasChanges, values, keys.
    destruct k; simpl; destruct (Z.eqb_spec v 0) as [|_]; try contradiction;
      simpl; now rewrite ?orb_true_r.
Qed.

Lemma value_change_sets_one_slider_witness :
  get (handleValueChange Samples.look Ksharpness 5) Kcontrast = -50 /\
  hasChanges (handleValueChange initialAdjustments Ksharpness 5) = true.
Proof.
  destruct (value_change_sets_one_slider Samples.look Ksharpness 5)
    as (_ & O & _).
  destruct (value_change_sets_one_slider initialAdjustments Ksharpness 5)
    as (_ & _ & _ & H).
  split; [apply O; discriminate | apply H; discriminate].
Defined.

End TranslatorMore.

(** ** The preview of the adjustments *)

Module PreviewMore.

Import App.

(** X25: the preview filter is built from brightness, contrast, saturation
    and temperature alone: it is the empty string exactly when these four
    are zero, and two records that agree on them have the same filter,
    whatever their sharpness, vignette and colour balance are. *)
Theorem preview_ignores_effects (toString : float -> string)
    (adj : AdjustmentPanel.Adjustments) :
  (createFilterString toString adj = "" <->
   AdjustmentPanel.brightness adj = 0 /\ AdjustmentPanel.contrast adj = 0 /\
   AdjustmentPanel.saturation adj = 0 /\ AdjustmentPanel.temperature adj = 0) /\
  (forall adj',
     AdjustmentPanel.brightness adj' = AdjustmentPanel.brightness adj ->
     AdjustmentPanel.contrast adj' = AdjustmentPanel.contrast adj ->
     AdjustmentPanel.saturation adj' = AdjustmentPanel.saturation adj ->
     AdjustmentPanel.temperature adj' = AdjustmentPanel.temperature adj ->
     createFilterString toString adj' = createFilterString toString adj).
Proof.
  split.
  - unfold createFilterString. cbv zeta.
    destruct (Z.eqb_spec (AdjustmentPanel.brightness adj) 0) as [B|B];
      destruct (Z.eqb_spec (AdjustmentPanel.contrast adj) 0) as [C|C];
      destruct (Z.eqb_spec (AdjustmentPanel.saturation adj) 0) as [S|S];
      destruct (Z.ltb_spec 0 (AdjustmentPanel.temperature adj)) as [T|T];
      try destruct (Z.ltb_spec (AdjustmentPanel.temperature adj) 0) as [T'|T'];
      cbn [negb JS.push app JS.join];
      (split; [intros E; try discriminate E; repeat split; lia
              | intros (? & ? & ? & ?); try reflexivity; lia]).
  - intros adj' Hb Hc Hs Ht. unfold createFilterString.
    now rewrite Hb, Hc, Hs, Ht.
Qed.

Lemma preview_ignores_effects_witness :
  createFilterString (fun _ => "n")
    (AdjustmentPanel.handleValueChange AdjustmentPanel.initialAdjustments
       AdjustmentPanel.Ksharpness 80) = "".
Proof.
  apply (proj2 (proj1 (preview_ignores_effects (fun _ => "n")
                         (AdjustmentPanel.handleValueChange
                            AdjustmentPanel.initialAdjustments
                            AdjustmentPanel.Ksharpness 80)))).
  repeat split.
Defined.

End PreviewMore.

(** ** More on the passport workflow *)

Module PassportMore.

Import App.

Lemma same_workflow (s s' : State) :
  passportStep s' = passportStep s ->
  passportCroppedImage s' = passportCroppedImage s ->
  keeps_background s s'.
Proof. intros. left. now split. Qed.

Lemma settle_keeps_background b p o s : keeps_background s (settle b p o s).
Proof.
  unfold settle.
  destruct (call p);
    [ unfold handleGenerate_resume | unfold handleApplyFilter_resume
    | unfold handleApplyAdjustment_resume | unfold handleAutoAdjust_resume
    | unfold handleUpscale_resume | unfold handlePassportBgChange_resume | ];
    try (match goal with
         | |- keeps_background ?s (tryCommit ?b ?o ?n ?k ?f ?d ?s) =>
             destruct (AppFacts.tryCommit_cases b o n k f d s) as [[x ->]|[x ->]];
             [ first [ apply same_workflow; reflexivity
                     | right; left; discriminate ]
             | now apply same_workflow ]
         end).
  destruct o.
  - unfold sheet_onload. destruct (sheetFile _ _ _ _) as [f|].
    + right. left. discriminate.
    + now apply same_workflow.
  - now apply same_workflow.
Qed.

Lemma later_keeps_background (f : State -> State * option Pending) (w : World) :
  (forall s, passportStep (fst (f s)) = passportStep s /\
             passportCroppedImage (fst (f s)) = passportCroppedImage s) ->
  keeps_background (app w) (app (later f w)).
Proof.
  intros Hf. unfold later. destruct (Hf (app w)) as [Hh Hi].
  destruct (f (app w)) as [s p]. now apply same_workflow.
Qed.

Lemma issue_keeps_workflow image c s :
  passportStep (fst (issue image c s)) = passportStep s /\
  passportCroppedImage (fst (issue image c s)) = passportCroppedImage s.
Proof. unfold issue. now destruct image. Qed.

Lemma handle_keeps_background b e w :
  keeps_background (app w) (app (handle b e w)).
Proof.
  destruct e; simpl;
    try (now apply same_workflow);
    try (apply later_keeps_background; intros s; apply issue_keeps_workflow).
  - (* FileSelect *) right. left. discriminate.
  - (* ImageClick *)
    unfold handleImageClick. destruct (activeTab (app w)); now apply same_workflow.
  - (* Generate *)
    apply later_keeps_background. intros s. unfold handleGenerate.
    destruct (currentImage s); [|now split].
    destruct (blank (prompt s)); [now split|].
    destruct (editHotspot s); now split.
  - (* ApplyCrop *)
    unfold handleApplyCrop.
    destruct (completedCrop (app w)), (Browser.imgRef b);
      try (now apply same_workflow).
    destruct (Raster.cropImageToFile _ _ _ _); now apply same_workflow.
  - (* PassportCrop *)
    unfold handlePassportCrop.
    destruct (completedCrop (app w)), (Browser.imgRef b);
      try (now apply same_workflow).
    destruct (Raster.cropImageToFile _ _ _ _); [|now apply same_workflow].
    right. right. discriminate.
  - (* SheetGenerate *)
    apply later_keeps_background. intros s. unfold handleSheetGenerate.
    destruct (currentImageUrl s); [|now split].
    destruct (negb _); now split.
  - (* PassportReset *) right. left. discriminate.
  - (* ClickUndo *)
    unfold handleUndo. destruct (canUndo (app w)); now apply same_workflow.
  - (* ClickRedo *)
    unfold handleRedo. destruct (canRedo (app w)); now apply same_workflow.
  - (* ClickReset *)
    unfold handleReset. destruct (0 <? _); now apply same_workflow.
  - (* ClickUploadNew *) right. left. discriminate.
  - (* Settle *)
    destruct (nth_error (inflight w) k); [|now apply same_workflow].
    apply settle_keeps_background.
Qed.

Lemma reachable_background (w : World) :
  reachable w -> background_has_image (app w).
Proof.
  induction 1 as [|b e w _ IH].
  - discriminate.
  - unfold step.
    destruct (Tab.eqb _ _).
    + destruct (handle_keeps_background b e w) as [[Hs Hi]|[H|H]];
        unfold background_has_image in *.
      * rewrite Hs, Hi. exact IH.
      * intros E. contradiction.
      * intros _. exact H.
    + unfold background_has_image, now, activeTabEffect. cbn [app].
      destruct (activeTab _); discriminate.
Qed.

(** X26: in every state the application can reach, a workflow at
    [background] holds a cropped-passport image; so whenever the panel lets
    "Change Background" be clicked, the handler has an image to send and
    issues the call for it with the chosen colour. *)
Theorem background_has_an_image (w : World) (l : PassportPanel.Local)
    (cb : PassportPanel.Callback) :
  reachable w ->
  background_has_image (app w) /\
  (PassportPanel.click (app w) l PassportPanel.ChangeBackground = Some cb ->
   exists image p,
     passportCroppedImage (app w) = Some image /\
     snd (handlePassportBgChange (PassportPanel.backgroundColor l) (app w))
     = Some p /\
     call p = generatePassportPhoto image (PassportPanel.backgroundColor l)).
Proof.
  intros Hr. pose proof (reachable_background w Hr) as Hb.
  split; [exact Hb|].
  unfold PassportPanel.click.
  destruct (passportStep (app w)) eqn:E; try discriminate.
  intros _.
  destruct (passportCroppedImage (app w)) as [image|] eqn:I.
  - exists image. unfold handlePassportBgChange, issue. rewrite I.
    eexists. repeat split.
  - exfalso. apply (Hb E). exact I.
Qed.

Lemma background_has_an_image_witness :
  let w := run (firstn 4 Samples.passport_session) start in
  passportStep (app w) = PassportStep.background /\
  passportCroppedImage (app w) <> None.
Proof.
  intros w.
  destruct (background_has_an_image w PassportPanel.initial
              PassportPanel.onReset) as [B _].
  - apply AppFacts.reachable_run. constructor.
  - assert (E : passportStep (app w) = PassportStep.background)
      by (vm_compute; reflexivity).
    split; [exact E | exact (B E)].
Defined.

End PassportMore.

(** ** Before the first upload *)

Module EmptyMore.

Import App.

Lemma world_eta (w : World) : {| app := app w; inflight := inflight w |} = w.
Proof. now destruct w. Qed.

(** X27: with an empty history (cursor at -1) nothing can be edited: undo,
    redo, reset, a filter, an adjustment, the auto adjustment, the upscale
    and the sheet leave the application exactly as it is and issue no call;
    the retouch only sets its error message, without a call and without
    the busy flag. *)
Theorem nothing_to_edit (b : Browser.t) (w : World) :
  history (app w) = [] -> historyIndex (app w) = -1 ->
  (forall e,
     In e [ClickUndo; ClickRedo; ClickReset; AutoAdjust; Upscale] ->
     step b e w = w) /\
  (forall text, step b (ApplyFilter text) w = w) /\
  (forall text, step b (ApplyAdjustment text) w = w) /\
  (forall sheetSize layout photoCount,
     step b (SheetGenerate sheetSize layout photoCount) w = w) /\
  inflight (step b Generate w) = inflight w /\
  isLoading (app (step b Generate w)) = isLoading (app w) /\
  error (app (step b Generate w)) = Some "No image loaded to edit.".
Proof.
  intros Hh Hi.
  assert (C : currentImage (app w) = None)
    by (unfold currentImage; now rewrite Hh, Hi).
  assert (L : forall f, f (app w) = (app w, None) -> later f w = w)
    by (intros f Hf; unfold later; rewrite Hf; apply world_eta).
  assert (N : forall f, f (app w) = app w -> now f w = w)
    by (intros f Hf; unfold now; rewrite Hf; apply world_eta).
  assert (S : forall e, handle b e w = w -> step b e w = w)
    by (intros e He; unfold step; rewrite He; now rewrite AppFacts.tab_eqb_refl).
  split; [|split; [|split; [|split]]].
  - intros e He. apply S. simpl in He.
    destruct He as [<-|[<-|[<-|[<-|[<-|[]]]]]]; simpl.
    + apply N. unfold handleUndo, canUndo. now rewrite Hi.
    + apply N. unfold handleRedo, canRedo. now rewrite Hh, Hi.
    + apply N. unfold handleReset. now rewrite Hh.
    + apply L. unfold handleAutoAdjust, issue. now rewrite C.
    + apply L. unfold handleUpscale, issue. now rewrite C.
  - intros text. apply S. simpl. apply L.
    unfold handleApplyFilter, issue. now rewrite C.
  - intros text. apply S. simpl. apply L.
    unfold handleApplyAdjustment, issue. now rewrite C.
  - intros sheetSize layout photoCount. apply S. simpl. apply L.
    unfold handleSheetGenerate, currentImageUrl. now rewrite C.
  - unfold step, handle, later, handleGenerate. rewrite C. cbn [app activeTab].
    assert (T : activeTab (setError (Some "No image loaded to edit.") (app w))
                = activeTab (app w)) by reflexivity.
    rewrite T, AppFacts.tab_eqb_refl. repeat split.
Qed.

Lemma nothing_to_edit_witness :
  step Samples.browser Upscale start = start /\
  error (app (step Samples.browser Generate start))
  = Some "No image loaded to edit.".
Proof.
  destruct (nothing_to_edit Samples.browser start eq_refl eq_refl)
    as (E & _ & _ & _ & _ & _ & G).
  split; [apply E; simpl; tauto | exact G].
Defined.

End EmptyMore.
